(** * glyph_pdf: the Glyph client, embedded and verified

    A shallow embedding of [packages/python/glyph_pdf/__init__.py]: the
    [Glyph] client, its three public methods and the [_request] primitive
    with its error normalisation.

    Python [str] values are modelled as [string], read as the UTF-8 bytes
    of the text.  The decoded JSON values of the [json] module are the
    inductive type [json]; a Python [dict] is an association list in
    insertion order.  The one effect of the program, the call of
    [urllib.request.urlopen], is a node of the command tree [py]. *)

From Stdlib Require Import ZArith List Bool Lia.
From Stdlib Require Import Strings.String Strings.Ascii Numbers.DecimalString.
Import ListNotations.

Set Warnings "-register-all".

Open Scope string_scope.
Open Scope Z_scope.

(** ** Python values *)

(** The values [json.loads] produces and [json.dumps] accepts.  A float is
    kept as its lexeme: no claim looks inside one. *)
Inductive json : Type :=
| JNull
| JBool (b : bool)
| JInt (n : Z)
| JFloat (lexeme : string)
| JStr (s : string)
| JArr (items : list json)
| JObj (fields : list (string * json)).

Definition pydict : Type := list (string * json).

(** [d.get(key)]: the value bound to [key], if any. *)
Fixpoint dict_lookup (key : string) (d : pydict) : option json :=
  match d with
  | [] => None
  | (k, v) :: rest => if String.eqb k key then Some v else dict_lookup key rest
  end.

(** [d.get(key, default)]. *)
Definition dict_get (d : pydict) (key : string) (default : json) : json :=
  match dict_lookup key d with
  | Some v => v
  | None => default
  end.

(** [d[key] = v]: an existing key keeps its place and takes the new value,
    a new key goes last. *)
Fixpoint dict_set (d : pydict) (key : string) (v : json) : pydict :=
  match d with
  | [] => [(key, v)]
  | (k, w) :: rest =>
      if String.eqb k key then (k, v) :: rest else (k, w) :: dict_set rest key v
  end.

Definition dict_keys (d : pydict) : list string := map fst d.

(** [str(n)] for an [int]. *)
Definition str_int (n : Z) : string := NilZero.string_of_int (Z.to_int n).

(** ** Exceptions *)

(** The exceptions that travel through [_request].  [ValueError] is the
    one [urllib.request.Request] raises on a URL with no scheme
    ("unknown url type").  [DecodeError] stands
    for what [json.loads(raw.decode("utf-8"))] raises on a body that is not
    JSON text ([json.JSONDecodeError] or [UnicodeDecodeError], both
    subclasses of [ValueError]).  An [HTTPError] carries the status code,
    the reason phrase and the body that [exc.read()] gives.  The [reason]
    of a [URLError] is kept as its [str()] rendering, which is all the
    source uses of it. *)
Inductive pyexc : Type :=
| HTTPError (code : Z) (msg : string) (body : string)
| URLError (reason : string)
| DecodeError
| ValueError
| AttributeError
| GlyphError (message : json) (status : Z) (code : json)
| OtherError (name : string).

Inductive exc_class : Type :=
| ClsHTTPError
| ClsURLError
| ClsGlyphError
| ClsException.

(** [isinstance(e, cls)]: [urllib.error.HTTPError] is a subclass of
    [urllib.error.URLError]. *)
Definition isinstance (e : pyexc) (cls : exc_class) : bool :=
  match cls, e with
  | ClsException, _ => true
  | ClsHTTPError, HTTPError _ _ _ => true
  | ClsURLError, HTTPError _ _ _ => true
  | ClsURLError, URLError _ => true
  | ClsGlyphError, GlyphError _ _ _ => true
  | _, _ => false
  end.

(** What [str(v)] gives.  On a [str] it is the string itself; the
    renderings that go through [repr] of a container or of a float are
    left symbolic. *)
Inductive rendering : Type :=
| Text (s : string)
| StrOf (v : json).

Definition py_str (v : json) : rendering :=
  match v with
  | JStr s => Text s
  | JNull => Text "None"
  | JBool true => Text "True"
  | JBool false => Text "False"
  | JInt n => Text (str_int n)
  | other => StrOf other
  end.

(** The [message] property of [GlyphError]: [str(self)], which for an
    exception built from one argument is [str] of that argument. *)
Definition message_of (e : pyexc) : option rendering :=
  match e with
  | GlyphError m _ _ => Some (py_str m)
  | _ => None
  end.

Definition status_of (e : pyexc) : option Z :=
  match e with
  | GlyphError _ s _ => Some s
  | _ => None
  end.

Definition code_of (e : pyexc) : option json :=
  match e with
  | GlyphError _ _ c => Some c
  | _ => None
  end.

(** ** The command tree *)

Record Request : Type := mkRequest {
  req_url : string;
  req_data : option string;
  req_headers : list (string * string);
  req_method : string
}.

(** What [urlopen(req)] followed by [resp.read()] does: it hands back the
    body of a 2xx response, or raises. *)
Inductive urlopen_outcome : Type :=
| Responded (body : string)
| Raised (e : pyexc).

(** A Python computation: it returns, raises, or calls [urlopen] and goes
    on with what came back. *)
Inductive py (A : Type) : Type :=
| Return (a : A)
| Raise (e : pyexc)
| Urlopen (req : Request) (k : urlopen_outcome -> py A).

Arguments Return {A} a.
Arguments Raise {A} e.
Arguments Urlopen {A} req k.

Fixpoint bind {A B : Type} (p : py A) (f : A -> py B) : py B :=
  match p with
  | Return a => f a
  | Raise e => Raise e
  | Urlopen req k => Urlopen req (fun out => bind (k out) f)
  end.

Notation "x <- p ;; q" := (bind p (fun x => q))
  (at level 61, p at next level, right associativity).

Inductive result (A : Type) : Type :=
| Returns (a : A)
| Raises (e : pyexc).

Arguments Returns {A} a.
Arguments Raises {A} e.

(** Running a computation against a network [net], which says what
    [urlopen] does with each request. *)
Fixpoint run {A : Type} (net : Request -> urlopen_outcome) (p : py A) : result A :=
  match p with
  | Return a => Returns a
  | Raise e => Raises e
  | Urlopen req k => run net (k (net req))
  end.

(** The requests a computation sends, in order. *)
Fixpoint sent {A : Type} (net : Request -> urlopen_outcome) (p : py A) : list Request :=
  match p with
  | Return _ => []
  | Raise _ => []
  | Urlopen req k => req :: sent net (k (net req))
  end.

(** ** Library functions of [urllib.parse] and [str] *)

Definition char_in (c : ascii) (chars : string) : bool :=
  existsb (Ascii.eqb c) (list_ascii_of_string chars).

(** [s.rstrip(chars)]: drops the longest suffix made of characters of
    [chars]. *)
Fixpoint rstrip (chars : string) (s : string) : string :=
  match s with
  | EmptyString => EmptyString
  | String c rest =>
      match rstrip chars rest with
      | EmptyString => if char_in c chars then EmptyString else String c EmptyString
      | kept => String c kept
      end
  end.

(** [s.replace(a, b)] for one-character [a] and [b]. *)
Fixpoint replace_char (a b : ascii) (s : string) : string :=
  match s with
  | EmptyString => EmptyString
  | String c rest => String (if Ascii.eqb c a then b else c) (replace_char a b rest)
  end.

Definition is_upper (c : ascii) : bool := (65 <=? nat_of_ascii c)%nat && (nat_of_ascii c <=? 90)%nat.
Definition is_lower (c : ascii) : bool := (97 <=? nat_of_ascii c)%nat && (nat_of_ascii c <=? 122)%nat.
Definition is_digit (c : ascii) : bool := (48 <=? nat_of_ascii c)%nat && (nat_of_ascii c <=? 57)%nat.

(** [_ALWAYS_SAFE]: the unreserved characters, letters, digits and [_.-~]. *)
Definition always_safe (c : ascii) : bool :=
  is_upper c || is_lower c || is_digit c || char_in c "_.-~".

Definition hex_digit (n : nat) : ascii :=
  if (n <? 10)%nat then ascii_of_nat (48 + n) else ascii_of_nat (55 + n).

(** ['%{:02X}'.format(b)]. *)
Definition percent_hex (c : ascii) : string :=
  String "%" (String (hex_digit (nat_of_ascii c / 16))
                     (String (hex_digit (nat_of_ascii c mod 16)) EmptyString)).

(** One entry of the quoter table: a byte that is always safe, or an
    ASCII character of [safe], stands for itself; every other byte becomes
    its escape. *)
Definition quote_byte (safe : string) (c : ascii) : string :=
  if always_safe c || ((nat_of_ascii c <? 128)%nat && char_in c safe)
  then String c EmptyString
  else percent_hex c.

Fixpoint quote_from_bytes (bs : string) (safe : string) : string :=
  match bs with
  | EmptyString => EmptyString
  | String c rest => quote_byte safe c ++ quote_from_bytes rest safe
  end.

(** [urllib.parse.quote(string, safe)] on a [str]: the text is encoded to
    UTF-8, which is how [string] holds it already, and quoted byte by
    byte. *)
Definition quote (s : string) (safe : string) : string :=
  match s with
  | EmptyString => s
  | _ => quote_from_bytes s safe
  end.

(** [urllib.parse.quote_plus(string, safe)]. *)
Definition quote_plus (s : string) (safe : string) : string :=
  if negb (char_in " " s) then quote s safe
  else replace_char " " "+" (quote s (safe ++ " ")).

(** [urllib.parse.urlencode(query)] on a mapping of [str] to [str], with
    its defaults [safe=''] and [quote_via=quote_plus]. *)
Definition urlencode (query : list (string * string)) : string :=
  String.concat "&"
    (map (fun kv => quote_plus (fst kv) EmptyString ++ "=" ++ quote_plus (snd kv) EmptyString) query).

(** The scheme test [urllib.request.Request] applies to a URL: a run of
    one or more characters other than [/] and [:] at the start of the
    text, followed by a [:].  The constructor first tidies the text (it
    strips white space, an enclosing pair of angle brackets and a leading
    [URL:], and cuts a fragment off), so a URL that fails this test is
    always refused, and one that passes it is accepted when the tidying
    leaves it alone; [plain_base_url] below says when it does. *)
Fixpoint scheme_from (seen : bool) (s : string) : bool :=
  match s with
  | EmptyString => false
  | String c rest =>
      if Ascii.eqb c ":" then seen
      else if Ascii.eqb c "/" then false
      else scheme_from true rest
  end.

Definition has_url_type (full_url : string) : bool := scheme_from false full_url.

(** A base URL the tidying of [Request] leaves alone: it starts with a
    letter, has a scheme, holds no [#] and does not start with [URL:].
    The URL of every call on such a base is accepted by [Request]. *)
Definition plain_base_url (base : string) : bool :=
  match base with
  | String c _ => is_upper c || is_lower c
  | EmptyString => false
  end
  && has_url_type base
  && negb (char_in "#" base)
  && negb (String.prefix "URL:" base).

(** ** Reading an escaped text back

    The two decodings a server applies, after RFC 3986 and the
    [application/x-www-form-urlencoded] rules; the client has no such
    function, the encoders above are checked against them. *)

Definition hex_val (c : ascii) : option nat :=
  let n := nat_of_ascii c in
  if is_digit c then Some (n - 48)%nat
  else if ((65 <=? n) && (n <=? 70))%nat then Some (n - 55)%nat
  else if ((97 <=? n) && (n <=? 102))%nat then Some (n - 87)%nat
  else None.

(** Every [%XX] goes back to the byte it stands for. *)
Fixpoint percent_decode (s : string) : string :=
  match s with
  | EmptyString => EmptyString
  | String c rest =>
      match rest with
      | String h (String l rest') =>
          if Ascii.eqb c "%" then
            match hex_val h, hex_val l with
            | Some a, Some b => String (ascii_of_nat (16 * a + b)) (percent_decode rest')
            | _, _ => String c (percent_decode rest)
            end
          else String c (percent_decode rest)
      | _ => String c (percent_decode rest)
      end
  end.

(** Form decoding: [+] is a space, then the escapes are read back. *)
Definition form_decode (s : string) : string :=
  percent_decode (replace_char "+" " " s).

(** The form encoding of one byte: a space is [+], an unreserved
    character stands for itself, any other byte is escaped. *)
Definition form_byte (c : ascii) : string :=
  if Ascii.eqb c " " then "+"
  else if always_safe c then String c EmptyString
  else percent_hex c.

Fixpoint form_encode (s : string) : string :=
  match s with
  | EmptyString => EmptyString
  | String c rest => form_byte c ++ form_encode rest
  end.

Definition all_chars (P : ascii -> bool) (s : string) : bool :=
  forallb P (list_ascii_of_string s).

(** How many times a character occurs in a text. *)
Fixpoint count_char (c : ascii) (s : string) : nat :=
  match s with
  | EmptyString => O
  | String a rest => ((if Ascii.eqb a c then 1 else 0) + count_char c rest)%nat
  end.

(** The last character of a text. *)
Fixpoint last_char (s : string) : option ascii :=
  match s with
  | EmptyString => None
  | String c rest =>
      match last_char rest with
      | Some l => Some l
      | None => Some c
      end
  end.

(** The characters an escaped path segment is written in. *)
Definition segment_char (c : ascii) : bool := always_safe c || Ascii.eqb c "%".

(** The characters an escaped form value is written in. *)
Definition form_char (c : ascii) : bool := segment_char c || Ascii.eqb c "+".

(** The reserved characters of RFC 3986, and the space. *)
Definition reserved : string := ":/?#[]@!$&'()*+,;= ".

(** ** The client *)

Record Glyph : Type := mkGlyph {
  _api_key : string;
  _base_url : string
}.

Definition default_base_url : string := "https://api.glyph.you".

(** [Glyph.__init__]. *)
Definition Glyph_init (api_key : string) (base_url : string) : Glyph :=
  {| _api_key := api_key; _base_url := rstrip "/" base_url |}.

(** The factory function [glyph]. *)
Definition glyph (api_key : string) (base_url : string) : Glyph :=
  Glyph_init api_key base_url.

(** The keyword arguments of [create]; [None] is the default of each
    optional one, and [format] is always a string. *)
Record create_args : Type := mkCreateArgs {
  data : option pydict;
  html : option string;
  url : option string;
  template_id : option string;
  intent : option string;
  style : option string;
  format : string;
  options : option pydict;
  ttl : option Z
}.

(** [create()] called with no argument at all. *)
Definition no_args : create_args :=
  {| data := None; html := None; url := None; template_id := None;
     intent := None; style := None; format := "pdf"; options := None;
     ttl := None |}.

(** [if x is not None: body[key] = x]. *)
Definition set_if_given {A : Type} (inj : A -> json) (key : string)
    (x : option A) (body : pydict) : pydict :=
  match x with
  | Some v => dict_set body key (inj v)
  | None => body
  end.

(** The mapping [create] assembles before it calls [_request]. *)
Definition create_body (a : create_args) : pydict :=
  let body := [("format", JStr (format a))] in
  let body := set_if_given JObj "data" (data a) body in
  let body := set_if_given JStr "html" (html a) body in
  let body := set_if_given JStr "url" (url a) body in
  let body := set_if_given JStr "templateId" (template_id a) body in
  let body := set_if_given JStr "intent" (intent a) body in
  let body := set_if_given JStr "style" (style a) body in
  let body := set_if_given JObj "options" (options a) body in
  let body := set_if_given JInt "ttl" (ttl a) body in
  body.

(** [value.get(key, default)] on whatever [json.loads] gave: only a
    [dict] has the method. *)
Definition py_get (value : json) (key : string) (default : json) : py json :=
  match value with
  | JObj d => Return (dict_get d key default)
  | _ => Raise AttributeError
  end.

Section Client.

(** The decoder and encoder of the [json] module.  [json_loads raw] is
    [json.loads(raw.decode("utf-8"))], [None] when it raises. *)
Variable json_loads : string -> option json.
Variable json_dumps : json -> string.

Definition request_headers (self : Glyph) : list (string * string) :=
  [("Authorization", "Bearer " ++ _api_key self);
   ("Content-Type", "application/json");
   ("Accept", "application/json")].

(** The fields of the [urllib.request.Request] that [_request] builds. *)
Definition build_request (self : Glyph) (method path : string)
    (body : option pydict) : Request :=
  {| req_url := _base_url self ++ path;
     req_data := option_map (fun b => json_dumps (JObj b)) body;
     req_headers := request_headers self;
     req_method := method |}.

(** The body of the [try]: [json.loads(resp.read().decode("utf-8"))]. *)
Definition try_block (out : urlopen_outcome) : result json :=
  match out with
  | Responded raw =>
      match json_loads raw with
      | Some v => Returns v
      | None => Raises DecodeError
      end
  | Raised e => Raises e
  end.

(** [except urllib.error.HTTPError as exc]. *)
Definition on_http_error (exc : pyexc) : py json :=
  match exc with
  | HTTPError code _ raw =>
      let error_body :=
        match json_loads raw with
        | Some v => v
        | None => JObj []
        end in
      m <- py_get error_body "error"
             (JStr ("Request failed with status " ++ str_int code)) ;;
      c <- py_get error_body "code" (JStr "UNKNOWN_ERROR") ;;
      Raise (GlyphError m code c)
  | _ => Raise AttributeError
  end.

(** [exc.reason], as [str] renders it; an [HTTPError] has one as well. *)
Definition reason_of (exc : pyexc) : option string :=
  match exc with
  | URLError reason => Some reason
  | HTTPError _ msg _ => Some msg
  | _ => None
  end.

(** [except urllib.error.URLError as exc]. *)
Definition on_url_error (exc : pyexc) : py json :=
  match reason_of exc with
  | Some reason =>
      Raise (GlyphError (JStr ("Connection error: " ++ reason)) 0
                        (JStr "CONNECTION_ERROR"))
  | None => Raise AttributeError
  end.

(** The [except] clauses, tried in the order they are written. *)
Definition except_clauses (exc : pyexc) : py json :=
  if isinstance exc ClsHTTPError then on_http_error exc
  else if isinstance exc ClsURLError then on_url_error exc
  else Raise exc.

(** [urllib.request.Request(url, data=..., headers=..., method=...)]: the
    constructor refuses a URL with no scheme. *)
Definition Request_init (fields : Request) : py Request :=
  if has_url_type (req_url fields) then Return fields else Raise ValueError.

(** [Glyph._request]. *)
Definition _request (self : Glyph) (method path : string)
    (body : option pydict) : py json :=
  req <- Request_init (build_request self method path body) ;;
  Urlopen req
    (fun out =>
       match try_block out with
       | Returns v => Return v
       | Raises exc => except_clauses exc
       end).

(** [Glyph.create]. *)
Definition create (self : Glyph) (a : create_args) : py json :=
  _request self "POST" "/v1/create" (Some (create_body a)).

(** The path [templates] asks for. *)
Definition templates_path (category : option string) : string :=
  let path := "/v1/templates" in
  match category with
  | Some c => path ++ "?" ++ urlencode [("category", c)]
  | None => path
  end.

(** [Glyph.templates]. *)
Definition templates (self : Glyph) (category : option string) : py json :=
  result <- _request self "GET" (templates_path category) None ;;
  py_get result "templates" (JArr []).

(** The path [template_schema] asks for. *)
Definition template_schema_path (template_id : string) : string :=
  let encoded := quote template_id EmptyString in
  "/v1/templates/" ++ encoded ++ "/schema".

(** [Glyph.template_schema]. *)
Definition template_schema (self : Glyph) (template_id : string) : py json :=
  _request self "GET" (template_schema_path template_id) None.

(** One call of a public method. *)
Inductive operation : Type :=
| OpCreate (a : create_args)
| OpTemplates (category : option string)
| OpTemplateSchema (template_id : string).

Definition perform (self : Glyph) (op : operation) : py json :=
  match op with
  | OpCreate a => create self a
  | OpTemplates category => templates self category
  | OpTemplateSchema template_id => template_schema self template_id
  end.

(** The path each operation hands to [_request]. *)
Definition path_of (op : operation) : string :=
  match op with
  | OpCreate _ => "/v1/create"
  | OpTemplates category => templates_path category
  | OpTemplateSchema template_id => template_schema_path template_id
  end.

(** *** The shape shared by the three operations *)

Definition method_of (op : operation) : string :=
  match op with
  | OpCreate _ => "POST"
  | _ => "GET"
  end.

Definition body_of (op : operation) : option pydict :=
  match op with
  | OpCreate a => Some (create_body a)
  | _ => None
  end.

(** The one request an operation sends; see [sent_perform]. *)
Definition request_of (self : Glyph) (op : operation) : Request :=
  build_request self (method_of op) (path_of op) (body_of op).

(** What the operation does with the decoded body of a 2xx response. *)
Definition finish (op : operation) (v : json) : py json :=
  match op with
  | OpTemplates _ => py_get v "templates" (JArr [])
  | _ => Return v
  end.

End Client.

(** ** A reference decoder

    The theorems below hold for every decoder.  To run the client on
    concrete response bodies, this is a decoder for JSON texts as
    [json.loads] reads them: the grammar of RFC 8259 with Python's extra
    literals [NaN], [Infinity] and [-Infinity].  A lone surrogate escape,
    which UTF-8 cannot hold, is refused. *)
Module Reference.

Definition dquote : ascii := ascii_of_nat 34.
Definition backslash : ascii := ascii_of_nat 92.

(** Writes a JSON text with ['] where it has a double quote. *)
Definition js (s : string) : string := replace_char "'" dquote s.

Definition is_ws (c : ascii) : bool :=
  let n := nat_of_ascii c in
  ((n =? 32) || (n =? 9) || (n =? 10) || (n =? 13))%nat.

Fixpoint skip_ws (s : string) : string :=
  match s with
  | String c rest => if is_ws c then skip_ws rest else s
  | EmptyString => EmptyString
  end.

Fixpoint strip_prefix (p s : string) : option string :=
  match p, s with
  | EmptyString, _ => Some s
  | String a p', String b s' => if Ascii.eqb a b then strip_prefix p' s' else None
  | String _ _, EmptyString => None
  end.

Definition hex_value (c : ascii) : option N :=
  let n := N_of_ascii c in
  if ((48 <=? n) && (n <=? 57))%N then Some (n - 48)%N
  else if ((65 <=? n) && (n <=? 70))%N then Some (n - 55)%N
  else if ((97 <=? n) && (n <=? 102))%N then Some (n - 87)%N
  else None.

Definition hex4 (a b c d : ascii) : option N :=
  match hex_value a, hex_value b, hex_value c, hex_value d with
  | Some x, Some y, Some z, Some w => Some (((x * 16 + y) * 16 + z) * 16 + w)%N
  | _, _, _, _ => None
  end.

Definition byte (n : N) : ascii := ascii_of_N n.

(** The UTF-8 bytes of a code point. *)
Definition utf8 (cp : N) : string :=
  if (cp <? 128)%N then String (byte cp) EmptyString
  else if (cp <? 2048)%N then
    String (byte (192 + cp / 64)) (String (byte (128 + cp mod 64)) EmptyString)
  else if (cp <? 65536)%N then
    String (byte (224 + cp / 4096))
      (String (byte (128 + (cp / 64) mod 64))
         (String (byte (128 + cp mod 64)) EmptyString))
  else
    String (byte (240 + cp / 262144))
      (String (byte (128 + (cp / 4096) mod 64))
         (String (byte (128 + (cp / 64) mod 64))
            (String (byte (128 + cp mod 64)) EmptyString))).

Definition is_high_surrogate (n : N) : bool := ((55296 <=? n) && (n <=? 56319))%N.
Definition is_low_surrogate (n : N) : bool := ((56320 <=? n) && (n <=? 57343))%N.

Definition simple_escape (c : ascii) : option ascii :=
  let n := nat_of_ascii c in
  if ((n =? 34) || (n =? 92) || (n =? 47))%nat then Some c
  else if (n =? 98)%nat then Some (ascii_of_nat 8)
  else if (n =? 102)%nat then Some (ascii_of_nat 12)
  else if (n =? 110)%nat then Some (ascii_of_nat 10)
  else if (n =? 114)%nat then Some (ascii_of_nat 13)
  else if (n =? 116)%nat then Some (ascii_of_nat 9)
  else None.

Definition cons_to (c : ascii) (r : option (string * string)) : option (string * string) :=
  match r with
  | Some (str, rest) => Some (String c str, rest)
  | None => None
  end.

Definition app_to (p : string) (r : option (string * string)) : option (string * string) :=
  match r with
  | Some (str, rest) => Some (p ++ str, rest)
  | None => None
  end.

(** The characters of a string literal, read from just after its opening
    quote up to the closing one. *)
Fixpoint parse_chars (s : string) : option (string * string) :=
  match s with
  | EmptyString => None
  | String c rest =>
      if Ascii.eqb c dquote then Some (EmptyString, rest)
      else if (nat_of_ascii c <? 32)%nat then None
      else if Ascii.eqb c backslash then
        match rest with
        | String "u" (String h1 (String h2 (String h3 (String h4 rest1)))) =>
            match hex4 h1 h2 h3 h4 with
            | None => None
            | Some hi =>
                if is_low_surrogate hi then None
                else if is_high_surrogate hi then
                  match rest1 with
                  | String e (String "u" (String l1 (String l2 (String l3 (String l4 rest2))))) =>
                      if Ascii.eqb e backslash then
                        match hex4 l1 l2 l3 l4 with
                        | Some lo =>
                            if is_low_surrogate lo
                            then app_to (utf8 (65536 + (hi - 55296) * 1024 + (lo - 56320))%N)
                                        (parse_chars rest2)
                            else None
                        | None => None
                        end
                      else None
                  | _ => None
                  end
                else app_to (utf8 hi) (parse_chars rest1)
            end
        | String e rest1 =>
            match simple_escape e with
            | Some c' => cons_to c' (parse_chars rest1)
            | None => None
            end
        | EmptyString => None
        end
      else cons_to c (parse_chars rest)
  end.

Fixpoint span_digits (s : string) : string * string :=
  match s with
  | String c rest =>
      if is_digit c
      then let (ds, r) := span_digits rest in (String c ds, r)
      else (EmptyString, s)
  | EmptyString => (EmptyString, EmptyString)
  end.

Fixpoint digits_value (acc : Z) (ds : string) : Z :=
  match ds with
  | EmptyString => acc
  | String c rest => digits_value (10 * acc + (Z.of_nat (nat_of_ascii c) - 48)) rest
  end.

Definition leading_zero (ds : string) : bool :=
  match ds with
  | String "0" (String _ _) => true
  | _ => false
  end.

(** What is left of [s] once [lexeme] has been read off its front. *)
Definition lexeme_of (s rest : string) : string :=
  substring 0 (String.length s - String.length rest) s.

(** A number: an integer literal gives an [int], one with a fraction or
    an exponent a float. *)
Definition parse_number (s : string) : option (json * string) :=
  let (neg, s1) :=
    match s with
    | String "-" r => (true, r)
    | _ => (false, s)
    end in
  let (ds, s2) := span_digits s1 in
  match ds with
  | EmptyString => None
  | _ =>
      if leading_zero ds then None
      else
        let frac :=
          match s2 with
          | String "." r =>
              let (fs, s3) := span_digits r in
              match fs with
              | EmptyString => None
              | _ => Some (true, s3)
              end
          | _ => Some (false, s2)
          end in
        match frac with
        | None => None
        | Some (has_frac, s3) =>
            let expo :=
              match s3 with
              | String e r =>
                  if char_in e "eE" then
                    let r' :=
                      match r with
                      | String sg r1 => if char_in sg "+-" then r1 else r
                      | EmptyString => r
                      end in
                    let (es, s4) := span_digits r' in
                    match es with
                    | EmptyString => None
                    | _ => Some (true, s4)
                    end
                  else Some (false, s3)
              | EmptyString => Some (false, s3)
              end in
            match expo with
            | None => None
            | Some (has_exp, s4) =>
                if has_frac || has_exp
                then Some (JFloat (lexeme_of s s4), s4)
                else Some (JInt (if neg then - digits_value 0 ds else digits_value 0 ds), s4)
            end
        end
  end.

Definition parse_literal (s : string) : option (json * string) :=
  match strip_prefix "null" s with
  | Some r => Some (JNull, r)
  | None =>
  match strip_prefix "true" s with
  | Some r => Some (JBool true, r)
  | None =>
  match strip_prefix "false" s with
  | Some r => Some (JBool false, r)
  | None =>
  match strip_prefix "NaN" s with
  | Some r => Some (JFloat "NaN", r)
  | None =>
  match strip_prefix "Infinity" s with
  | Some r => Some (JFloat "Infinity", r)
  | None =>
  match strip_prefix "-Infinity" s with
  | Some r => Some (JFloat "-Infinity", r)
  | None => parse_number s
  end end end end end end.

(** One value at the front of [s], and what follows it.  [fuel] bounds
    the number of nested calls. *)
Fixpoint parse_value (fuel : nat) (s : string) : option (json * string) :=
  match fuel with
  | O => None
  | S fuel' =>
      match s with
      | EmptyString => None
      | String c rest =>
          if Ascii.eqb c "{" then
            match skip_ws rest with
            | String "}" after => Some (JObj [], after)
            | inner => parse_fields fuel' inner []
            end
          else if Ascii.eqb c "[" then
            match skip_ws rest with
            | String "]" after => Some (JArr [], after)
            | inner => parse_items fuel' inner []
            end
          else if Ascii.eqb c dquote then
            match parse_chars rest with
            | Some (str, after) => Some (JStr str, after)
            | None => None
            end
          else parse_literal s
      end
  end

with parse_items (fuel : nat) (s : string) (acc : list json) : option (json * string) :=
  match fuel with
  | O => None
  | S fuel' =>
      match parse_value fuel' s with
      | Some (v, after) =>
          match skip_ws after with
          | String "," more => parse_items fuel' (skip_ws more) (v :: acc)
          | String "]" more => Some (JArr (rev (v :: acc)), more)
          | _ => None
          end
      | None => None
      end
  end

with parse_fields (fuel : nat) (s : string) (acc : pydict) : option (json * string) :=
  match fuel with
  | O => None
  | S fuel' =>
      match s with
      | String q rest =>
          if Ascii.eqb q dquote then
            match parse_chars rest with
            | Some (key, after_key) =>
                match skip_ws after_key with
                | String ":" after_colon =>
                    match parse_value fuel' (skip_ws after_colon) with
                    | Some (v, after) =>
                        match skip_ws after with
                        | String "," more =>
                            parse_fields fuel' (skip_ws more) (dict_set acc key v)
                        | String "}" more => Some (JObj (dict_set acc key v), more)
                        | _ => None
                        end
                    | None => None
                    end
                | _ => None
                end
            | None => None
            end
          else None
      | EmptyString => None
      end
  end.

(** [json.loads] on the bytes of a body. *)
Definition loads (raw : string) : option json :=
  match parse_value (2 * String.length raw + 2) (skip_ws raw) with
  | Some (v, rest) =>
      match skip_ws rest with
      | EmptyString => Some v
      | _ => None
      end
  | None => None
  end.

(** *** The encoder, [json.dumps] with its defaults *)

Definition lower_hex_digit (n : N) : ascii :=
  if (n <? 10)%N then ascii_of_N (48 + n) else ascii_of_N (87 + n).

(** ['\\u{0:04x}'.format(n)]. *)
Definition u_escape (n : N) : string :=
  String backslash
    (String "u"
       (String (lower_hex_digit (n / 4096))
          (String (lower_hex_digit ((n / 256) mod 16))
             (String (lower_hex_digit ((n / 16) mod 16))
                (String (lower_hex_digit (n mod 16)) EmptyString))))).

(** The escape of one code point under [ensure_ascii]. *)
Definition escape_code_point (cp : N) : string :=
  if (cp =? 34)%N then String backslash (String dquote EmptyString)
  else if (cp =? 92)%N then String backslash (String backslash EmptyString)
  else if (cp =? 10)%N then String backslash "n"
  else if (cp =? 13)%N then String backslash "r"
  else if (cp =? 9)%N then String backslash "t"
  else if (cp =? 8)%N then String backslash "b"
  else if (cp =? 12)%N then String backslash "f"
  else if ((32 <=? cp) && (cp <=? 126))%N then String (ascii_of_N cp) EmptyString
  else if (cp <? 65536)%N then u_escape cp
  else
    let v := (cp - 65536)%N in
    u_escape (55296 + v / 1024) ++ u_escape (56320 + v mod 1024).

(** The code points of a text, read back from its UTF-8 bytes: [acc]
    holds the bits of a sequence under way, [need] the number of
    continuation bytes it still wants. *)
Fixpoint code_points (acc : N) (need : nat) (s : string) : list N :=
  match s with
  | EmptyString => []
  | String b rest =>
      let n := N_of_ascii b in
      match need with
      | S k =>
          let acc' := (acc * 64 + n mod 64)%N in
          match k with
          | O => acc' :: code_points 0%N O rest
          | S _ => code_points acc' k rest
          end
      | O =>
          if ((192 <=? n) && (n <? 224))%N then code_points (n - 192)%N 1%nat rest
          else if ((224 <=? n) && (n <? 240))%N then code_points (n - 224)%N 2%nat rest
          else if ((240 <=? n) && (n <? 248))%N then code_points (n - 240)%N 3%nat rest
          else n :: code_points 0%N O rest
      end
  end.

Definition escape_chars (s : string) : string :=
  String.concat EmptyString (map escape_code_point (code_points 0%N O s)).

Definition encode_string (s : string) : string :=
  String dquote (escape_chars s ++ String dquote EmptyString).

(** [json.dumps(v)]: separators [", "] and [": "], keys in insertion
    order.  A float is written as its lexeme. *)
Fixpoint dumps (v : json) : string :=
  match v with
  | JNull => "null"
  | JBool true => "true"
  | JBool false => "false"
  | JInt n => str_int n
  | JFloat lexeme => lexeme
  | JStr s => encode_string s
  | JArr items => "[" ++ String.concat ", " (map dumps items) ++ "]"
  | JObj fields =>
      "{" ++ String.concat ", "
               (map (fun kv => match kv with
                               | (k, w) => encode_string k ++ ": " ++ dumps w
                               end) fields)
          ++ "}"
  end.

End Reference.

(** ** The keys of a [create] body *)

(** The key a field is sent under, when the caller gave it. *)
Definition given {A : Type} (key : string) (x : option A) : list string :=
  match x with
  | Some _ => [key]
  | None => []
  end.

(** The keys of a call: [format], then those of the fields given, in the
    order [create] sets them. *)
Definition keys_given (a : create_args) : list string :=
  ("format" :: given "data" (data a) ++ given "html" (html a) ++ given "url" (url a)
     ++ given "templateId" (template_id a) ++ given "intent" (intent a)
     ++ given "style" (style a) ++ given "options" (options a)
     ++ given "ttl" (ttl a))%list.

(** Whether the keys of a list are pairwise distinct. *)
Fixpoint distinct (l : list string) : bool :=
  match l with
  | [] => true
  | k :: rest => negb (existsb (String.eqb k) rest) && distinct rest
  end.

(** ** What every operation sends and how its outcome is handled *)

Section Operations.

Variable json_loads : string -> option json.
Variable json_dumps : json -> string.

Lemma run_bind {A B : Type} (net : Request -> urlopen_outcome)
    (p : py A) (f : A -> py B) :
  run net (bind p f) =
  match run net p with
  | Returns a => run net (f a)
  | Raises e => Raises e
  end.
Proof.
  induction p as [a | e | req k IH]; simpl; auto.
Qed.

Lemma sent_bind {A B : Type} (net : Request -> urlopen_outcome)
    (p : py A) (f : A -> py B) :
  sent net (bind p f) =
  (sent net p ++ match run net p with
                 | Returns a => sent net (f a)
                 | Raises _ => []
                 end)%list.
Proof.
  induction p as [a | e | req k IH]; simpl; auto.
  now rewrite IH.
Qed.

Lemma sent_py_get (net : Request -> urlopen_outcome) (v : json)
    (key : string) (default : json) :
  sent net (py_get v key default) = [].
Proof. destruct v; reflexivity. Qed.

Lemma sent_except_clauses (net : Request -> urlopen_outcome) (exc : pyexc) :
  sent net (except_clauses json_loads exc) = [].
Proof.
  destruct exc as [code msg raw | reason | | | | m s c | name]; try reflexivity.
  unfold except_clauses, on_http_error; simpl.
  destruct (json_loads raw) as [[]|]; reflexivity.
Qed.

(** The [except] clauses end in a [raise], whatever they are given. *)
Lemma except_clauses_raise (net : Request -> urlopen_outcome) (exc : pyexc) :
  exists e, run net (except_clauses json_loads exc) = Raises e.
Proof.
  destruct exc as [code msg raw | reason | | | | m s c | name];
    try (eexists; reflexivity).
  unfold except_clauses, on_http_error; simpl.
  destruct (json_loads raw) as [[]|]; eexists; reflexivity.
Qed.

Lemma scheme_from_app (seen : bool) (s t : string) :
  scheme_from seen s = true -> scheme_from seen (s ++ t) = true.
Proof.
  revert seen. induction s as [| c s IH]; simpl; intros seen H; [discriminate |].
  destruct (Ascii.eqb c ":"); [exact H |].
  destruct (Ascii.eqb c "/"); [discriminate |].
  now apply IH.
Qed.

(** A base with a scheme keeps it when a path is appended: [Request]
    accepts the URL of every call. *)
Lemma base_scheme_suffices (self : Glyph) (path : string) :
  has_url_type (_base_url self) = true ->
  has_url_type (_base_url self ++ path) = true.
Proof. apply scheme_from_app. Qed.

(** Without a scheme nothing is sent: the constructor raises. *)
Lemma request_without_scheme (net : Request -> urlopen_outcome) (self : Glyph)
    (method path : string) (body : option pydict) :
  has_url_type (_base_url self ++ path) = false ->
  run net (_request json_loads json_dumps self method path body) = Raises ValueError
  /\ sent net (_request json_loads json_dumps self method path body) = [].
Proof.
  intros H. unfold _request, Request_init; simpl. rewrite H. split; reflexivity.
Qed.

Lemma sent_request_url (net : Request -> urlopen_outcome) (self : Glyph)
    (method path : string) (body : option pydict) :
  has_url_type (_base_url self ++ path) = true ->
  sent net (_request json_loads json_dumps self method path body) =
  [build_request json_dumps self method path body].
Proof.
  intros H. unfold _request, Request_init; simpl. rewrite H; simpl. f_equal.
  destruct (try_block json_loads _); [reflexivity | apply sent_except_clauses].
Qed.

Lemma sent_perform_url (net : Request -> urlopen_outcome) (self : Glyph) (op : operation) :
  has_url_type (_base_url self ++ path_of op) = true ->
  sent net (perform json_loads json_dumps self op) = [request_of json_dumps self op].
Proof.
  intros H. destruct op as [a | category | tid]; unfold perform, request_of.
  - now apply sent_request_url.
  - unfold templates. rewrite sent_bind, sent_request_url by exact H.
    destruct (run net _); [rewrite sent_py_get |]; reflexivity.
  - now apply sent_request_url.
Qed.

(** Every operation of a client whose base has a scheme sends exactly one
    request, [request_of]. *)
Lemma sent_perform (net : Request -> urlopen_outcome) (self : Glyph) (op : operation) :
  has_url_type (_base_url self) = true ->
  sent net (perform json_loads json_dumps self op) = [request_of json_dumps self op].
Proof.
  intros H. apply sent_perform_url. now apply base_scheme_suffices.
Qed.

(** Nothing but [request_of] is ever sent. *)
Lemma sent_perform_only (net : Request -> urlopen_outcome) (self : Glyph)
    (op : operation) (req : Request) :
  In req (sent net (perform json_loads json_dumps self op)) ->
  req = request_of json_dumps self op.
Proof.
  destruct (has_url_type (_base_url self ++ path_of op)) eqn:H.
  - rewrite (sent_perform_url net self op H). intros [<- | []]. reflexivity.
  - assert (S : sent net (perform json_loads json_dumps self op) = []).
    { destruct op as [a | category | tid]; unfold perform.
      - apply request_without_scheme, H.
      - unfold templates. rewrite sent_bind.
        destruct (request_without_scheme net self "GET" (templates_path category) None H)
          as [Hr Hs].
        now rewrite Hr, Hs.
      - apply request_without_scheme, H. }
    rewrite S. intros [].
Qed.

Lemma run_request (net : Request -> urlopen_outcome) (self : Glyph)
    (method path : string) (body : option pydict) :
  has_url_type (_base_url self) = true ->
  run net (_request json_loads json_dumps self method path body) =
  match try_block json_loads (net (build_request json_dumps self method path body)) with
  | Returns v => Returns v
  | Raises exc => run net (except_clauses json_loads exc)
  end.
Proof.
  intros H. unfold _request, Request_init; simpl.
  rewrite (base_scheme_suffices self path H); simpl.
  destruct (try_block json_loads _); reflexivity.
Qed.

(** An operation is its request, the handling of the outcome, and on a
    decoded 2xx body the operation's own last step. *)
Lemma run_perform (net : Request -> urlopen_outcome) (self : Glyph) (op : operation) :
  has_url_type (_base_url self) = true ->
  run net (perform json_loads json_dumps self op) =
  match try_block json_loads (net (request_of json_dumps self op)) with
  | Returns v => run net (finish op v)
  | Raises exc => run net (except_clauses json_loads exc)
  end.
Proof.
  intros H. destruct op as [a | category | tid]; unfold perform, request_of.
  - unfold create. rewrite run_request by exact H. reflexivity.
  - unfold templates. rewrite run_bind, run_request by exact H.
    destruct (try_block json_loads _) as [v | exc]; [reflexivity |].
    destruct (except_clauses_raise net exc) as [e He]. now rewrite He.
  - unfold template_schema. rewrite run_request by exact H. reflexivity.
Qed.

(** On an [HTTPError] whose body is a JSON object, or is not JSON at
    all, the fields of the raised [GlyphError] come from that object,
    taken as empty in the second case. *)
Lemma run_http_error (net : Request -> urlopen_outcome) (self : Glyph)
    (op : operation) (code : Z) (msg raw : string) (d : pydict) :
  has_url_type (_base_url self) = true ->
  net (request_of json_dumps self op) = Raised (HTTPError code msg raw) ->
  json_loads raw = Some (JObj d) \/ (json_loads raw = None /\ d = []) ->
  run net (perform json_loads json_dumps self op) =
  Raises (GlyphError
            (dict_get d "error" (JStr ("Request failed with status " ++ str_int code)))
            code
            (dict_get d "code" (JStr "UNKNOWN_ERROR"))).
Proof.
  intros Hurl Hnet Hbody. rewrite run_perform, Hnet by exact Hurl. simpl.
  unfold except_clauses, on_http_error; simpl.
  destruct Hbody as [-> | [-> ->]]; reflexivity.
Qed.

(** On an [HTTPError] whose body is JSON but no object, the handler
    itself fails: [.get] is no attribute of the decoded value. *)
Lemma run_http_error_non_object (net : Request -> urlopen_outcome) (self : Glyph)
    (op : operation) (code : Z) (msg raw : string) (v : json) :
  has_url_type (_base_url self) = true ->
  net (request_of json_dumps self op) = Raised (HTTPError code msg raw) ->
  json_loads raw = Some v ->
  (forall d, v <> JObj d) ->
  run net (perform json_loads json_dumps self op) = Raises AttributeError.
Proof.
  intros Hurl Hnet Hbody Hv. rewrite run_perform, Hnet by exact Hurl. simpl.
  unfold except_clauses, on_http_error; simpl. rewrite Hbody.
  destruct v; try reflexivity. now elim (Hv fields).
Qed.

(** Whatever the body of an [HTTPError], the call raises, and a
    [GlyphError] it raises has the HTTP status: the first clause takes
    the exception, the clause for [URLError] never sees it. *)
Lemma run_http_error_cases (net : Request -> urlopen_outcome) (self : Glyph)
    (op : operation) (code : Z) (msg raw : string) :
  has_url_type (_base_url self) = true ->
  net (request_of json_dumps self op) = Raised (HTTPError code msg raw) ->
  run net (perform json_loads json_dumps self op) = Raises AttributeError
  \/ exists m c, run net (perform json_loads json_dumps self op) =
                 Raises (GlyphError m code c).
Proof.
  intros Hurl Hnet. rewrite run_perform, Hnet by exact Hurl. simpl.
  unfold except_clauses, on_http_error; simpl.
  destruct (json_loads raw) as [[] |]; simpl; try (left; reflexivity);
    right; eexists; eexists; reflexivity.
Qed.


Lemma run_decode_error (net : Request -> urlopen_outcome) (self : Glyph)
    (op : operation) (raw : string) :
  has_url_type (_base_url self) = true ->
  net (request_of json_dumps self op) = Responded raw ->
  json_loads raw = None ->
  run net (perform json_loads json_dumps self op) = Raises DecodeError.
Proof.
  intros Hurl Hnet Hbody. rewrite run_perform, Hnet by exact Hurl.
  simpl. rewrite Hbody. reflexivity.
Qed.

Lemma run_responded (net : Request -> urlopen_outcome) (self : Glyph)
    (op : operation) (raw : string) (v : json) :
  has_url_type (_base_url self) = true ->
  net (request_of json_dumps self op) = Responded raw ->
  json_loads raw = Some v ->
  run net (perform json_loads json_dumps self op) = run net (finish op v).
Proof.
  intros Hurl Hnet Hbody. rewrite run_perform, Hnet by exact Hurl.
  simpl. rewrite Hbody. reflexivity.
Qed.


(** An [HTTPError] is a [URLError] too: were the two clauses written the
    other way round, it would be reported as a connection error. *)
Lemma http_error_is_url_error (code : Z) (msg raw : string) :
  isinstance (HTTPError code msg raw) ClsURLError = true
  /\ on_url_error (HTTPError code msg raw) =
     Raise (GlyphError (JStr ("Connection error: " ++ msg)) 0 (JStr "CONNECTION_ERROR"))
  /\ except_clauses json_loads (HTTPError code msg raw) =
     on_http_error json_loads (HTTPError code msg raw).
Proof. repeat split. Qed.

End Operations.

(** ** Facts about the string functions *)

Ltac each_byte c := destruct c as [[] [] [] [] [] [] [] []].

Lemma all_chars_app (P : ascii -> bool) (s t : string) :
  all_chars P (s ++ t) = all_chars P s && all_chars P t.
Proof.
  unfold all_chars. induction s as [| c s IH]; simpl; [reflexivity |].
  rewrite IH. now rewrite andb_assoc.
Qed.

Lemma all_chars_ext (P Q : ascii -> bool) (s : string) :
  (forall c, P c = Q c) -> all_chars P s = all_chars Q s.
Proof.
  intros H. unfold all_chars. induction s as [| c s IH]; simpl; [reflexivity |].
  now rewrite H, IH.
Qed.

Lemma all_chars_not_in (P : ascii -> bool) (s : string) (c : ascii) :
  all_chars P s = true -> P c = false -> char_in c s = false.
Proof.
  unfold all_chars, char_in. induction s as [| a s IH]; simpl; [reflexivity |].
  intros Hall Hc. apply andb_true_iff in Hall as [Ha Hs].
  rewrite (IH Hs Hc), orb_false_r.
  destruct (Ascii.eqb_spec c a) as [-> |]; [congruence | reflexivity].
Qed.

Lemma rstrip_split (chars s : string) :
  exists t, s = rstrip chars s ++ t /\ all_chars (fun c => char_in c chars) t = true.
Proof.
  induction s as [| c s [t [Hs Ht]]]; simpl.
  - exists EmptyString. split; reflexivity.
  - destruct (rstrip chars s) as [| k kept] eqn:E.
    + destruct (char_in c chars) eqn:Hc.
      * exists (String c s). split; [reflexivity |].
        simpl in Hs. subst t. unfold all_chars in *; simpl. now rewrite Hc.
      * exists t. split; [| exact Ht]. simpl. simpl in Hs. now rewrite <- Hs.
    + exists t. split; [| exact Ht]. simpl. simpl in Hs. now rewrite <- Hs.
Qed.

Lemma rstrip_last (chars s : string) (c : ascii) :
  last_char (rstrip chars s) = Some c -> char_in c chars = false.
Proof.
  revert c. induction s as [| a s IH]; simpl; intros c; [discriminate |].
  destruct (rstrip chars s) as [| k kept] eqn:E.
  - destruct (char_in a chars) eqn:Ha; simpl; [discriminate |].
    intros [= <-]. exact Ha.
  - change (last_char (String a (String k kept)))
      with (match last_char (String k kept) with Some l => Some l | None => Some a end).
    destruct (last_char (String k kept)) as [l |] eqn:El.
    + intros [= <-]. now apply IH.
    + simpl in El. destruct (last_char kept); discriminate.
Qed.

(** With an empty [safe], a byte stands for itself exactly when it is
    unreserved. *)
Lemma quote_byte_empty_safe (c : ascii) :
  quote_byte EmptyString c = if always_safe c then String c EmptyString else percent_hex c.
Proof.
  unfold quote_byte, char_in; simpl. now rewrite andb_false_r, orb_false_r.
Qed.

Lemma quote_is_quote_from_bytes (s safe : string) :
  quote s safe = quote_from_bytes s safe.
Proof. destruct s; reflexivity. Qed.

Lemma quote_byte_alphabet (c : ascii) :
  all_chars segment_char (quote_byte EmptyString c) = true.
Proof. each_byte c; reflexivity. Qed.

Lemma quote_alphabet (s : string) :
  all_chars segment_char (quote s EmptyString) = true.
Proof.
  rewrite quote_is_quote_from_bytes.
  induction s as [| c s IH]; simpl; [reflexivity |].
  now rewrite all_chars_app, quote_byte_alphabet, IH.
Qed.

Lemma reserved_escaped (c : ascii) :
  char_in c reserved = true -> quote_byte EmptyString c = percent_hex c.
Proof. each_byte c; (discriminate || reflexivity). Qed.

Lemma percent_decode_quote_byte (c : ascii) (t : string) :
  percent_decode (quote_byte EmptyString c ++ t) = String c (percent_decode t).
Proof.
  each_byte c; try reflexivity; destruct t as [| h [| l r]]; reflexivity.
Qed.

(** Escaping loses nothing: decoding gives the text back. *)
Lemma percent_decode_quote (s : string) :
  percent_decode (quote s EmptyString) = s.
Proof.
  rewrite quote_is_quote_from_bytes.
  induction s as [| c s IH]; simpl; [reflexivity |].
  now rewrite percent_decode_quote_byte, IH.
Qed.

Lemma replace_char_app (a b : ascii) (s t : string) :
  replace_char a b (s ++ t) = replace_char a b s ++ replace_char a b t.
Proof.
  induction s as [| c s IH]; simpl; [reflexivity |]. now rewrite IH.
Qed.

Lemma form_byte_no_space (c : ascii) :
  Ascii.eqb c " " = false -> quote_byte EmptyString c = form_byte c.
Proof.
  intros H. rewrite quote_byte_empty_safe. unfold form_byte. now rewrite H.
Qed.

Lemma form_byte_space_safe (c : ascii) :
  replace_char " " "+" (quote_byte " " c) = form_byte c.
Proof. each_byte c; reflexivity. Qed.

Lemma quote_without_space (s : string) :
  char_in " " s = false -> quote_from_bytes s EmptyString = form_encode s.
Proof.
  unfold char_in. induction s as [| c s IH]; simpl; [reflexivity |].
  intros H. apply orb_false_iff in H as [Hc Hs].
  rewrite IH by exact Hs. f_equal. apply form_byte_no_space.
  now rewrite Ascii.eqb_sym.
Qed.

Lemma quote_with_space (s : string) :
  replace_char " " "+" (quote_from_bytes s " ") = form_encode s.
Proof.
  induction s as [| c s IH]; simpl; [reflexivity |].
  now rewrite replace_char_app, form_byte_space_safe, IH.
Qed.

(** [quote_plus] with an empty [safe] is the form encoding, byte by
    byte. *)
Lemma quote_plus_form_encode (s : string) :
  quote_plus s EmptyString = form_encode s.
Proof.
  unfold quote_plus. destruct (char_in " " s) eqn:H; simpl.
  - rewrite quote_is_quote_from_bytes. apply quote_with_space.
  - rewrite quote_is_quote_from_bytes. now apply quote_without_space.
Qed.

Lemma form_byte_alphabet (c : ascii) :
  all_chars form_char (form_byte c) = true.
Proof. each_byte c; reflexivity. Qed.

Lemma form_encode_alphabet (s : string) :
  all_chars form_char (form_encode s) = true.
Proof.
  induction s as [| c s IH]; simpl; [reflexivity |].
  now rewrite all_chars_app, form_byte_alphabet, IH.
Qed.

Lemma form_decode_form_byte (c : ascii) (t : string) :
  form_decode (form_byte c ++ t) = String c (form_decode t).
Proof.
  unfold form_decode. rewrite replace_char_app.
  each_byte c; try reflexivity;
    destruct (replace_char "+" " " t) as [| h [| l r]]; reflexivity.
Qed.

Lemma form_decode_form_encode (s : string) :
  form_decode (form_encode s) = s.
Proof.
  induction s as [| c s IH]; simpl; [reflexivity |].
  now rewrite form_decode_form_byte, IH.
Qed.

Lemma urlencode_category (c : string) :
  urlencode [("category", c)] = "category=" ++ quote_plus c EmptyString.
Proof. reflexivity. Qed.

(** ** The claims *)

Lemma distinct_NoDup (l : list string) : distinct l = true -> NoDup l.
Proof.
  induction l as [| k rest IH]; simpl; intros H; constructor.
  - apply andb_true_iff in H as [H _]. apply negb_true_iff in H.
    intros Hin. assert (E : existsb (String.eqb k) rest = true).
    { apply existsb_exists. exists k. split; [exact Hin | apply String.eqb_refl]. }
    congruence.
  - apply andb_true_iff in H as [_ H]. now apply IH.
Qed.

Lemma keys_given_NoDup (a : create_args) : NoDup (keys_given a).
Proof.
  apply distinct_NoDup.
  destruct a as [d h u t i s f o l].
  destruct d, h, u, t, i, s, o, l; reflexivity.
Qed.

(** The client of the examples: the default base, which has a scheme. *)
Lemma default_client_scheme (api_key : string) :
  has_url_type (_base_url (Glyph_init api_key default_base_url)) = true.
Proof. reflexivity. Qed.

(** C1: for every combination of optional fields, the body [create] hands
    to [json.dumps] and sends holds the key [format] (["pdf"] unless the
    caller says otherwise) and one key for each optional field that was
    given, each once and nothing else; a given field is sent with its
    value, also an empty string or an empty mapping, and a field that was
    not given has no key. *)
Theorem create_body_exact_keys :
  forall (json_loads : string -> option json) (json_dumps : json -> string)
         (net : Request -> urlopen_outcome) (self : Glyph) (a : create_args),
    (has_url_type (_base_url self) = true ->
     sent net (create json_loads json_dumps self a) =
       [{| req_url := _base_url self ++ "/v1/create";
           req_data := Some (json_dumps (JObj (create_body a)));
           req_headers := request_headers self;
           req_method := "POST" |}])
    /\ (forall req, In req (sent net (create json_loads json_dumps self a)) ->
                    req_data req = Some (json_dumps (JObj (create_body a))))
    /\ dict_keys (create_body a) = keys_given a
    /\ NoDup (dict_keys (create_body a))
    /\ format no_args = "pdf"
    /\ dict_lookup "format" (create_body a) = Some (JStr (format a))
    /\ dict_lookup "data" (create_body a) = option_map JObj (data a)
    /\ dict_lookup "html" (create_body a) = option_map JStr (html a)
    /\ dict_lookup "url" (create_body a) = option_map JStr (url a)
    /\ dict_lookup "templateId" (create_body a) = option_map JStr (template_id a)
    /\ dict_lookup "intent" (create_body a) = option_map JStr (intent a)
    /\ dict_lookup "style" (create_body a) = option_map JStr (style a)
    /\ dict_lookup "options" (create_body a) = option_map JObj (options a)
    /\ dict_lookup "ttl" (create_body a) = option_map JInt (ttl a).
Proof.
  intros json_loads json_dumps net self a.
  assert (K : dict_keys (create_body a) = keys_given a).
  { destruct a as [d h u t i s f o l].
    destruct d, h, u, t, i, s, o, l; reflexivity. }
  split; [intros Hurl; exact (sent_perform json_loads json_dumps net self (OpCreate a) Hurl) |].
  split.
  { intros req Hin.
    now rewrite (sent_perform_only json_loads json_dumps net self (OpCreate a) req Hin). }
  split; [exact K |].
  split; [rewrite K; apply keys_given_NoDup |].
  split; [reflexivity |].
  destruct a as [d h u t i s f o l].
  destruct d, h, u, t, i, s, o, l; repeat split; reflexivity.
Qed.

Lemma create_body_exact_keys_witness :
  sent (fun _ => Responded "{}")
       (create Reference.loads Reference.dumps (Glyph_init "gk_key" default_base_url)
               {| data := Some []; html := Some EmptyString; url := None;
                  template_id := None; intent := None; style := None;
                  format := "pdf"; options := None; ttl := Some 0 |})
  = [{| req_url := "https://api.glyph.you/v1/create";
        req_data := Some (Reference.js "{'format': 'pdf', 'data': {}, 'html': '', 'ttl': 0}");
        req_headers := [("Authorization", "Bearer gk_key");
                        ("Content-Type", "application/json");
                        ("Accept", "application/json")];
        req_method := "POST" |}].
Proof.
  apply (proj1 (create_body_exact_keys Reference.loads Reference.dumps
                  (fun _ => Responded "{}") (Glyph_init "gk_key" default_base_url)
                  {| data := Some []; html := Some EmptyString; url := None;
                     template_id := None; intent := None; style := None;
                     format := "pdf"; options := None; ttl := Some 0 |})).
  reflexivity.
Defined.

(** C2: whatever the operation, when [urlopen] raises an [HTTPError] and
    the body is a JSON object (or is not JSON at all, which the handler
    takes as the empty object), the call raises a [GlyphError] whose
    status is the HTTP status code, whose code is the object's [code]
    field if it has one and ["UNKNOWN_ERROR"] otherwise, and whose message
    is the object's [error] field if it has one and
    ["Request failed with status <code>"] otherwise.  So a 422 with body
    [{"error": "bad field", "code": "INVALID_FIELD"}] gives 422,
    ["INVALID_FIELD"], ["bad field"], and a 500 whose body is not JSON
    gives 500, ["UNKNOWN_ERROR"], ["Request failed with status 500"]. *)
Theorem http_failure_normalised :
  (forall (json_loads : string -> option json) (json_dumps : json -> string)
          (net : Request -> urlopen_outcome) (self : Glyph) (op : operation)
          (code : Z) (msg raw : string) (d : pydict),
      has_url_type (_base_url self) = true ->
      net (request_of json_dumps self op) = Raised (HTTPError code msg raw) ->
      json_loads raw = Some (JObj d) \/ (json_loads raw = None /\ d = []) ->
      let m := match dict_lookup "error" d with
               | Some field => field
               | None => JStr ("Request failed with status " ++ str_int code)
               end in
      let c := match dict_lookup "code" d with
               | Some field => field
               | None => JStr "UNKNOWN_ERROR"
               end in
      run net (perform json_loads json_dumps self op) = Raises (GlyphError m code c)
      /\ status_of (GlyphError m code c) = Some code
      /\ code_of (GlyphError m code c) = Some c
      /\ message_of (GlyphError m code c) = Some (py_str m)
      /\ (forall s, m = JStr s -> message_of (GlyphError m code c) = Some (Text s)))
  /\ (forall (self : Glyph) (op : operation) (msg : string),
        has_url_type (_base_url self) = true ->
        run (fun _ => Raised (HTTPError 422 msg
                       (Reference.js "{'error': 'bad field', 'code': 'INVALID_FIELD'}")))
            (perform Reference.loads Reference.dumps self op)
        = Raises (GlyphError (JStr "bad field") 422 (JStr "INVALID_FIELD")))
  /\ (forall (json_loads : string -> option json) (json_dumps : json -> string)
             (self : Glyph) (op : operation) (msg raw : string),
        has_url_type (_base_url self) = true ->
        json_loads raw = None ->
        run (fun _ => Raised (HTTPError 500 msg raw))
            (perform json_loads json_dumps self op)
        = Raises (GlyphError (JStr "Request failed with status 500") 500
                             (JStr "UNKNOWN_ERROR"))).
Proof.
  split; [| split].
  - intros json_loads json_dumps net self op code msg raw d Hurl Hnet Hbody m c.
    split; [| repeat split].
    + exact (run_http_error json_loads json_dumps net self op code msg raw d
               Hurl Hnet Hbody).
    + intros s ->. reflexivity.
  - intros self op msg Hurl.
    apply (run_http_error Reference.loads Reference.dumps _ self op 422 msg
             (Reference.js "{'error': 'bad field', 'code': 'INVALID_FIELD'}")
             [("error", JStr "bad field"); ("code", JStr "INVALID_FIELD")]);
      [exact Hurl | reflexivity | left; reflexivity].
  - intros json_loads json_dumps self op msg raw Hurl Hraw.
    apply (run_http_error json_loads json_dumps _ self op 500 msg raw []);
      [exact Hurl | reflexivity | right; split; [exact Hraw | reflexivity]].
Qed.

Lemma http_failure_normalised_witness :
  run (fun _ => Raised (HTTPError 404 "Not Found" (Reference.js "{'error': 'no such template'}")))
      (perform Reference.loads Reference.dumps (Glyph_init "gk_key" default_base_url)
               (OpTemplateSchema "invoice"))
  = Raises (GlyphError (JStr "no such template") 404 (JStr "UNKNOWN_ERROR"))
  /\ run (fun _ => Raised (HTTPError 422 "Unprocessable Entity"
                     (Reference.js "{'error': 'bad field', 'code': 'INVALID_FIELD'}")))
         (perform Reference.loads Reference.dumps (Glyph_init "gk_key" default_base_url)
                  (OpCreate no_args))
     = Raises (GlyphError (JStr "bad field") 422 (JStr "INVALID_FIELD"))
  /\ run (fun _ => Raised (HTTPError 500 "Internal Server Error" "<html>oops</html>"))
         (perform Reference.loads Reference.dumps (Glyph_init "gk_key" default_base_url)
                  (OpTemplates None))
     = Raises (GlyphError (JStr "Request failed with status 500") 500 (JStr "UNKNOWN_ERROR")).
Proof.
  split; [| split].
  - apply (proj1 http_failure_normalised Reference.loads Reference.dumps
             (fun _ => Raised (HTTPError 404 "Not Found"
                                 (Reference.js "{'error': 'no such template'}")))
             (Glyph_init "gk_key" default_base_url) (OpTemplateSchema "invoice")
             404 "Not Found" (Reference.js "{'error': 'no such template'}")
             [("error", JStr "no such template")]).
    + reflexivity.
    + reflexivity.
    + left. reflexivity.
  - apply (proj1 (proj2 http_failure_normalised)
             (Glyph_init "gk_key" default_base_url) (OpCreate no_args)
             "Unprocessable Entity").
    reflexivity.
  - apply (proj2 (proj2 http_failure_normalised) Reference.loads Reference.dumps
             (Glyph_init "gk_key" default_base_url) (OpTemplates None)
             "Internal Server Error" "<html>oops</html>").
    + reflexivity.
    + reflexivity.
Defined.




(** C4, evaluated where it fails: an HTTP failure whose body is JSON but
    not an object, here an array and a string, is not taken as an empty
    error body.  The call ends in an [AttributeError], which is no
    [GlyphError]. *)
Theorem non_object_error_body_escapes :
  forall (api_key : string) (op : operation) (code : Z) (msg : string),
    run (fun _ => Raised (HTTPError code msg (Reference.js "['down for maintenance']")))
        (perform Reference.loads Reference.dumps (Glyph_init api_key default_base_url) op)
    = Raises AttributeError
    /\ run (fun _ => Raised (HTTPError code msg (Reference.js "'down for maintenance'")))
           (perform Reference.loads Reference.dumps (Glyph_init api_key default_base_url) op)
       = Raises AttributeError
    /\ isinstance AttributeError ClsGlyphError = false.
Proof.
  intros api_key op code msg. repeat split.
  - apply (run_http_error_non_object Reference.loads Reference.dumps _ _ op code msg
             (Reference.js "['down for maintenance']")
             (JArr [JStr "down for maintenance"]));
      [reflexivity | reflexivity | reflexivity | discriminate].
  - apply (run_http_error_non_object Reference.loads Reference.dumps _ _ op code msg
             (Reference.js "'down for maintenance'")
             (JStr "down for maintenance"));
      [reflexivity | reflexivity | reflexivity | discriminate].
Qed.

(** C5: when the response to [templates] is a 2xx whose body is a JSON
    object, [templates] returns the value of the object's [templates]
    field, and the empty list when the object has no such field; so
    [{"templates": [{"id":"a"}]}] gives [[{"id":"a"}]] and [{}] gives
    []. *)
Theorem templates_returns_field :
  (forall (json_loads : string -> option json) (json_dumps : json -> string)
          (net : Request -> urlopen_outcome) (self : Glyph)
          (category : option string) (raw : string) (d : pydict),
      has_url_type (_base_url self) = true ->
      net (request_of json_dumps self (OpTemplates category)) = Responded raw ->
      json_loads raw = Some (JObj d) ->
      run net (templates json_loads json_dumps self category) =
      Returns (match dict_lookup "templates" d with
               | Some field => field
               | None => JArr []
               end))
  /\ (forall (self : Glyph) (category : option string),
        has_url_type (_base_url self) = true ->
        run (fun _ => Responded (Reference.js "{'templates': [{'id':'a'}]}"))
            (templates Reference.loads Reference.dumps self category)
        = Returns (JArr [JObj [("id", JStr "a")]]))
  /\ (forall (self : Glyph) (category : option string),
        has_url_type (_base_url self) = true ->
        run (fun _ => Responded "{}")
            (templates Reference.loads Reference.dumps self category)
        = Returns (JArr [])).
Proof.
  split; [| split].
  - intros json_loads json_dumps net self category raw d Hurl Hnet Hbody.
    change (templates json_loads json_dumps self category)
      with (perform json_loads json_dumps self (OpTemplates category)).
    rewrite (run_responded json_loads json_dumps net self _ raw (JObj d) Hurl Hnet Hbody).
    reflexivity.
  - intros self category Hurl.
    change (templates Reference.loads Reference.dumps self category)
      with (perform Reference.loads Reference.dumps self (OpTemplates category)).
    rewrite run_perform by exact Hurl. reflexivity.
  - intros self category Hurl.
    change (templates Reference.loads Reference.dumps self category)
      with (perform Reference.loads Reference.dumps self (OpTemplates category)).
    rewrite run_perform by exact Hurl. reflexivity.
Qed.

Lemma templates_returns_field_witness :
  run (fun _ => Responded (Reference.js "{'templates': [{'id':'a'}, {'id':'b'}], 'total': 2}"))
      (templates Reference.loads Reference.dumps (Glyph_init "gk_key" default_base_url)
                 (Some "invoices"))
  = Returns (JArr [JObj [("id", JStr "a")]; JObj [("id", JStr "b")]])
  /\ run (fun _ => Responded (Reference.js "{'templates': [{'id':'a'}]}"))
         (templates Reference.loads Reference.dumps (Glyph_init "gk_key" default_base_url) None)
     = Returns (JArr [JObj [("id", JStr "a")]])
  /\ run (fun _ => Responded "{}")
         (templates Reference.loads Reference.dumps (Glyph_init "gk_key" default_base_url) None)
     = Returns (JArr []).
Proof.
  split; [| split].
  - apply (proj1 templates_returns_field Reference.loads Reference.dumps
             (fun _ => Responded (Reference.js "{'templates': [{'id':'a'}, {'id':'b'}], 'total': 2}"))
             (Glyph_init "gk_key" default_base_url) (Some "invoices")
             (Reference.js "{'templates': [{'id':'a'}, {'id':'b'}], 'total': 2}")
             [("templates", JArr [JObj [("id", JStr "a")]; JObj [("id", JStr "b")]]);
              ("total", JInt 2)]).
    + reflexivity.
    + reflexivity.
    + reflexivity.
  - apply (proj1 (proj2 templates_returns_field) (Glyph_init "gk_key" default_base_url) None).
    reflexivity.
  - apply (proj2 (proj2 templates_returns_field) (Glyph_init "gk_key" default_base_url) None).
    reflexivity.
Defined.

(** C6: for every [template_id], [template_schema] asks with GET for the
    path ["/v1/templates/<encoded>/schema"], where the identifier is
    quoted with an empty safe set: each unreserved byte stands for
    itself, every other byte, and so every reserved character and the
    slash, becomes its [%XX] escape.  The quoted segment is written in
    unreserved characters and [%] only, holds no space and no slash, and
    decodes back to the identifier.  For ["inv oice/1"] it is
    ["inv%20oice%2F1"]. *)
Theorem template_schema_path_encoded :
  forall (json_loads : string -> option json) (json_dumps : json -> string)
         (net : Request -> urlopen_outcome) (self : Glyph) (template_id : string),
    let encoded := quote template_id EmptyString in
    (has_url_type (_base_url self) = true ->
     sent net (template_schema json_loads json_dumps self template_id) =
       [{| req_url := _base_url self ++ "/v1/templates/" ++ encoded ++ "/schema";
           req_data := None;
           req_headers := request_headers self;
           req_method := "GET" |}])
    /\ (forall req,
          In req (sent net (template_schema json_loads json_dumps self template_id)) ->
          req_method req = "GET"
          /\ req_url req = _base_url self ++ "/v1/templates/" ++ encoded ++ "/schema")
    /\ encoded = quote_from_bytes template_id EmptyString
    /\ (forall c, quote_byte EmptyString c =
                  if always_safe c then String c EmptyString else percent_hex c)
    /\ (forall c, char_in c reserved = true -> quote_byte EmptyString c = percent_hex c)
    /\ all_chars segment_char encoded = true
    /\ char_in " " encoded = false
    /\ char_in "/" encoded = false
    /\ percent_decode encoded = template_id
    /\ quote "inv oice/1" EmptyString = "inv%20oice%2F1"
    /\ template_schema_path "inv oice/1" = "/v1/templates/inv%20oice%2F1/schema".
Proof.
  intros json_loads json_dumps net self template_id encoded.
  split.
  { intros Hurl.
    exact (sent_perform json_loads json_dumps net self (OpTemplateSchema template_id) Hurl). }
  split.
  { intros req Hin.
    rewrite (sent_perform_only json_loads json_dumps net self
               (OpTemplateSchema template_id) req Hin).
    split; reflexivity. }
  split; [apply quote_is_quote_from_bytes |].
  split; [apply quote_byte_empty_safe |].
  split; [apply reserved_escaped |].
  split; [apply quote_alphabet |].
  split; [apply (all_chars_not_in segment_char); [apply quote_alphabet | reflexivity] |].
  split; [apply (all_chars_not_in segment_char); [apply quote_alphabet | reflexivity] |].
  split; [apply percent_decode_quote |].
  split; reflexivity.
Qed.

Lemma template_schema_path_encoded_witness :
  sent (fun _ => Responded "{}")
       (template_schema Reference.loads Reference.dumps
                        (Glyph_init "gk_key" default_base_url) "inv oice/1")
  = [{| req_url := "https://api.glyph.you/v1/templates/inv%20oice%2F1/schema";
        req_data := None;
        req_headers := [("Authorization", "Bearer gk_key");
                        ("Content-Type", "application/json");
                        ("Accept", "application/json")];
        req_method := "GET" |}]
  /\ quote_byte EmptyString "/" = "%2F"
  /\ quote_byte EmptyString " " = "%20".
Proof.
  pose proof (template_schema_path_encoded Reference.loads Reference.dumps
                (fun _ => Responded "{}") (Glyph_init "gk_key" default_base_url)
                "inv oice/1") as H.
  destruct H as (Hsent & _ & _ & _ & Hreserved & _).
  split; [| split].
  - apply Hsent. reflexivity.
  - apply (Hreserved "/"%char). reflexivity.
  - apply (Hreserved " "%char). reflexivity.
Defined.

(** C7: [templates] without a category asks with GET for exactly
    ["/v1/templates"], with no query string; with a category it asks for
    ["/v1/templates?category=<encoded>"], the value form-encoded: a space
    becomes [+], an unreserved character stands for itself, any other
    byte is escaped.  The encoded value is written in unreserved
    characters, [%] and [+] only and decodes back to the category.  For
    ["invoices"] the path is ["/v1/templates?category=invoices"]. *)
Theorem templates_path_query :
  forall (json_loads : string -> option json) (json_dumps : json -> string)
         (net : Request -> urlopen_outcome) (self : Glyph),
    (has_url_type (_base_url self) = true ->
     sent net (templates json_loads json_dumps self None) =
       [{| req_url := _base_url self ++ "/v1/templates";
           req_data := None;
           req_headers := request_headers self;
           req_method := "GET" |}])
    /\ templates_path None = "/v1/templates"
    /\ char_in "?" (templates_path None) = false
    /\ (forall category : string,
          let encoded := quote_plus category EmptyString in
          (has_url_type (_base_url self) = true ->
           sent net (templates json_loads json_dumps self (Some category)) =
             [{| req_url := _base_url self ++ "/v1/templates?category=" ++ encoded;
                 req_data := None;
                 req_headers := request_headers self;
                 req_method := "GET" |}])
          /\ templates_path (Some category) = "/v1/templates?category=" ++ encoded
          /\ encoded = form_encode category
          /\ all_chars form_char encoded = true
          /\ char_in " " encoded = false
          /\ form_decode encoded = category)
    /\ (forall (category : option string) (req : Request),
          In req (sent net (templates json_loads json_dumps self category)) ->
          req_method req = "GET"
          /\ req_url req = _base_url self ++ templates_path category)
    /\ templates_path (Some "invoices") = "/v1/templates?category=invoices"
    /\ templates_path (Some "past due & paid") = "/v1/templates?category=past+due+%26+paid".
Proof.
  intros json_loads json_dumps net self.
  split.
  { intros Hurl. exact (sent_perform json_loads json_dumps net self (OpTemplates None) Hurl). }
  split; [reflexivity |].
  split; [reflexivity |].
  split; [| split; [| split; reflexivity]].
  - intros category encoded.
    split.
    { intros Hurl.
      exact (sent_perform json_loads json_dumps net self (OpTemplates (Some category)) Hurl). }
    split; [reflexivity |].
    unfold encoded. rewrite quote_plus_form_encode.
    split; [reflexivity |].
    split; [apply form_encode_alphabet |].
    split; [apply (all_chars_not_in form_char); [apply form_encode_alphabet | reflexivity] |].
    apply form_decode_form_encode.
  - intros category req Hin.
    rewrite (sent_perform_only json_loads json_dumps net self (OpTemplates category) req Hin).
    split; reflexivity.
Qed.

Lemma templates_path_query_witness :
  sent (fun _ => Responded "{}")
       (templates Reference.loads Reference.dumps (Glyph_init "gk_key" default_base_url) None)
  = [{| req_url := "https://api.glyph.you/v1/templates";
        req_data := None;
        req_headers := [("Authorization", "Bearer gk_key");
                        ("Content-Type", "application/json");
                        ("Accept", "application/json")];
        req_method := "GET" |}]
  /\ sent (fun _ => Responded "{}")
          (templates Reference.loads Reference.dumps (Glyph_init "gk_key" default_base_url)
                     (Some "invoices"))
     = [{| req_url := "https://api.glyph.you/v1/templates?category=invoices";
           req_data := None;
           req_headers := [("Authorization", "Bearer gk_key");
                           ("Content-Type", "application/json");
                           ("Accept", "application/json")];
           req_method := "GET" |}].
Proof.
  pose proof (templates_path_query Reference.loads Reference.dumps
                (fun _ => Responded "{}") (Glyph_init "gk_key" default_base_url)) as H.
  destruct H as (Hnone & _ & _ & Hsome & _).
  split.
  - apply Hnone. reflexivity.
  - apply (proj1 (Hsome "invoices")). reflexivity.
Defined.

(** C8: whatever the operation, a 2xx response whose body is not JSON
    makes the call end in the decoder's own error, which is no
    [GlyphError]: no [except] clause takes it.  The same body under an
    [HTTPError] is swallowed and a [GlyphError] is raised. *)
Theorem success_body_decode_error_propagates :
  forall (json_loads : string -> option json) (json_dumps : json -> string)
         (net : Request -> urlopen_outcome) (self : Glyph) (op : operation)
         (raw : string),
    has_url_type (_base_url self) = true ->
    net (request_of json_dumps self op) = Responded raw ->
    json_loads raw = None ->
    run net (perform json_loads json_dumps self op) = Raises DecodeError
    /\ isinstance DecodeError ClsGlyphError = false
    /\ isinstance DecodeError ClsHTTPError = false
    /\ isinstance DecodeError ClsURLError = false
    /\ (forall code msg,
          run (fun _ => Raised (HTTPError code msg raw))
              (perform json_loads json_dumps self op)
          = Raises (GlyphError (JStr ("Request failed with status " ++ str_int code))
                               code (JStr "UNKNOWN_ERROR"))).
Proof.
  intros json_loads json_dumps net self op raw Hurl Hnet Hraw.
  split; [exact (run_decode_error json_loads json_dumps net self op raw Hurl Hnet Hraw) |].
  repeat split.
  intros code msg.
  apply (run_http_error json_loads json_dumps _ self op code msg raw []);
    [exact Hurl | reflexivity | right; split; [exact Hraw | reflexivity]].
Qed.

Lemma success_body_decode_error_propagates_witness :
  run (fun _ => Responded "<html>It works!</html>")
      (perform Reference.loads Reference.dumps (Glyph_init "gk_key" default_base_url)
               (OpCreate no_args)) = Raises DecodeError.
Proof.
  apply (success_body_decode_error_propagates Reference.loads Reference.dumps
           (fun _ => Responded "<html>It works!</html>")
           (Glyph_init "gk_key" default_base_url) (OpCreate no_args)
           "<html>It works!</html>").
  - reflexivity.
  - reflexivity.
  - reflexivity.
Defined.

(** C9: construction removes every trailing slash of [base_url], and
    nothing else; whatever an operation sends goes to the stored base
    followed by the operation's path, which starts with ["/v1/"].  A
    client built on ["https://x.test/"] thus sends every request to
    ["https://x.test"] followed by the path, one slash between the
    two. *)
Theorem base_url_trailing_slash_stripped :
  (forall (api_key base_url : string),
      let self := Glyph_init api_key base_url in
      (exists slashes,
          base_url = _base_url self ++ slashes
          /\ all_chars (fun c => Ascii.eqb c "/") slashes = true)
      /\ last_char (_base_url self) <> Some "/"%char)
  /\ (forall (json_loads : string -> option json) (json_dumps : json -> string)
             (net : Request -> urlopen_outcome) (self : Glyph) (op : operation)
             (req : Request),
        In req (sent net (perform json_loads json_dumps self op)) ->
        req_url req = _base_url self ++ path_of op)
  /\ (forall op : operation, exists rest, path_of op = "/v1/" ++ rest)
  /\ (forall (json_loads : string -> option json) (json_dumps : json -> string)
             (net : Request -> urlopen_outcome) (api_key : string) (op : operation),
        map req_url (sent net (perform json_loads json_dumps
                                       (Glyph_init api_key "https://x.test/") op)) =
        ["https://x.test" ++ path_of op])
  /\ _base_url (Glyph_init "gk_key" "https://x.test///") = "https://x.test".
Proof.
  split; [| split; [| split; [| split]]].
  - intros api_key base_url self. split.
    + destruct (rstrip_split "/" base_url) as [t [Hs Ht]].
      exists t. split; [exact Hs |].
      rewrite (all_chars_ext _ (fun c => char_in c "/")); [exact Ht |].
      intros c. symmetry. exact (orb_false_r (Ascii.eqb c "/")).
    + intros H. apply rstrip_last in H. discriminate.
  - intros json_loads json_dumps net self op req Hin.
    now rewrite (sent_perform_only json_loads json_dumps net self op req Hin).
  - intros [a | [c |] | tid]; simpl; eexists; reflexivity.
  - intros json_loads json_dumps net api_key op.
    rewrite sent_perform by reflexivity. reflexivity.
  - reflexivity.
Qed.

Lemma base_url_trailing_slash_stripped_witness :
  req_url (request_of Reference.dumps (Glyph_init "gk_key" "https://x.test/")
                      (OpTemplates (Some "invoices")))
  = "https://x.test/v1/templates?category=invoices".
Proof.
  apply (proj1 (proj2 base_url_trailing_slash_stripped) Reference.loads Reference.dumps
           (fun _ => Responded "{}") (Glyph_init "gk_key" "https://x.test/")
           (OpTemplates (Some "invoices"))).
  left. reflexivity.
Defined.

(** C10, evaluated where it fails: an HTTP 503 whose body is the JSON
    text [null] or [[]] makes the call end in an [AttributeError], which
    carries no status at all; the error raised is neither the
    [GlyphError] of the HTTP status nor the one of a connection error. *)
Theorem http_failure_without_status :
  forall (api_key : string) (op : operation),
    run (fun _ => Raised (HTTPError 503 "Service Unavailable" "null"))
        (perform Reference.loads Reference.dumps (Glyph_init api_key default_base_url) op)
    = Raises AttributeError
    /\ run (fun _ => Raised (HTTPError 503 "Service Unavailable" "[]"))
           (perform Reference.loads Reference.dumps (Glyph_init api_key default_base_url) op)
       = Raises AttributeError
    /\ status_of AttributeError = None.
Proof.
  intros api_key op. repeat split.
  - apply (run_http_error_non_object Reference.loads Reference.dumps _ _ op
             503 "Service Unavailable" "null" JNull);
      [reflexivity | reflexivity | reflexivity | discriminate].
  - apply (run_http_error_non_object Reference.loads Reference.dumps _ _ op
             503 "Service Unavailable" "[]" (JArr []));
      [reflexivity | reflexivity | reflexivity | discriminate].
Qed.

(** ** Further properties of the client *)

Section MoreOperations.

Variable json_loads : string -> option json.
Variable json_dumps : json -> string.

Lemma path_of_starts_with_slash (op : operation) :
  exists rest, path_of op = String "/" rest.
Proof. destruct op as [a | [c |] | tid]; simpl; eexists; reflexivity. Qed.

Lemma scheme_from_before_slash (seen : bool) (base rest : string) :
  scheme_from seen base = false ->
  scheme_from seen (base ++ String "/" rest) = false.
Proof.
  revert seen. induction base as [| c base IH]; simpl; intros seen H; [reflexivity |].
  destruct (Ascii.eqb c ":"); [exact H |].
  destruct (Ascii.eqb c "/"); [reflexivity |].
  now apply IH.
Qed.

(** Stripping trailing slashes neither gives a URL a scheme nor takes it
    away. *)
Lemma scheme_from_rstrip (seen : bool) (s : string) :
  scheme_from seen (rstrip "/" s) = scheme_from seen s.
Proof.
  revert seen. induction s as [| c s IH]; intros seen; [reflexivity |].
  simpl. destruct (rstrip "/" s) as [| k kept] eqn:E.
  - destruct (Ascii.eqb_spec c "/") as [-> | Hc].
    + reflexivity.
    + assert (Hin : char_in c "/" = false).
      { unfold char_in; simpl. rewrite orb_false_r. now apply Ascii.eqb_neq. }
      rewrite Hin. simpl.
      destruct (Ascii.eqb c ":"); [reflexivity |].
      apply Ascii.eqb_neq in Hc. rewrite Hc.
      now rewrite <- IH.
  - simpl. destruct (Ascii.eqb c ":"); [reflexivity |].
    destruct (Ascii.eqb c "/"); [reflexivity |].
    rewrite <- IH. reflexivity.
Qed.

Lemma no_scheme_no_url (self : Glyph) (op : operation) :
  has_url_type (_base_url self) = false ->
  has_url_type (_base_url self ++ path_of op) = false.
Proof.
  intros H. destruct (path_of_starts_with_slash op) as [rest ->].
  now apply scheme_from_before_slash.
Qed.

(** When [Request] refuses the URL the call stops there. *)
Lemma perform_without_url (net : Request -> urlopen_outcome) (self : Glyph)
    (op : operation) :
  has_url_type (_base_url self ++ path_of op) = false ->
  run net (perform json_loads json_dumps self op) = Raises ValueError
  /\ sent net (perform json_loads json_dumps self op) = [].
Proof.
  intros H. destruct op as [a | category | tid]; unfold perform.
  - now apply request_without_scheme.
  - unfold templates. rewrite run_bind, sent_bind.
    destruct (request_without_scheme json_loads json_dumps net self "GET"
                (templates_path category) None H) as [Hr Hs].
    rewrite Hr, Hs. split; reflexivity.
  - now apply request_without_scheme.
Qed.

Lemma run_request_url (net : Request -> urlopen_outcome) (self : Glyph)
    (method path : string) (body : option pydict) :
  has_url_type (_base_url self ++ path) = true ->
  run net (_request json_loads json_dumps self method path body) =
  match try_block json_loads (net (build_request json_dumps self method path body)) with
  | Returns v => Returns v
  | Raises exc => run net (except_clauses json_loads exc)
  end.
Proof.
  intros H. unfold _request, Request_init; simpl. rewrite H; simpl.
  destruct (try_block json_loads _); reflexivity.
Qed.

Lemma run_perform_url (net : Request -> urlopen_outcome) (self : Glyph) (op : operation) :
  has_url_type (_base_url self ++ path_of op) = true ->
  run net (perform json_loads json_dumps self op) =
  match try_block json_loads (net (request_of json_dumps self op)) with
  | Returns v => run net (finish op v)
  | Raises exc => run net (except_clauses json_loads exc)
  end.
Proof.
  intros H. destruct op as [a | category | tid]; unfold perform, request_of.
  - unfold create. rewrite run_request_url by exact H. reflexivity.
  - unfold templates. rewrite run_bind, run_request_url by exact H.
    destruct (try_block json_loads _) as [v | exc]; [reflexivity |].
    destruct (except_clauses_raise json_loads net exc) as [e He]. now rewrite He.
  - unfold template_schema. rewrite run_request_url by exact H. reflexivity.
Qed.

(** What the [except] clauses raise is never a [URLError]. *)
Lemma except_clauses_no_url_error (net : Request -> urlopen_outcome) (exc e : pyexc) :
  run net (except_clauses json_loads exc) = Raises e ->
  isinstance e ClsURLError = false.
Proof.
  destruct exc as [code msg raw | reason | | | | m s c | name];
    unfold except_clauses; simpl; try (intros [= <-]; reflexivity).
  unfold on_http_error.
  destruct (json_loads raw) as [[] |]; simpl; intros [= <-]; reflexivity.
Qed.

Lemma finish_no_url_error (net : Request -> urlopen_outcome) (op : operation)
    (v : json) (e : pyexc) :
  run net (finish op v) = Raises e -> e = AttributeError.
Proof.
  destruct op as [a | category | tid]; simpl; try discriminate.
  destruct v; simpl; try discriminate; now intros [= <-].
Qed.

End MoreOperations.

Lemma plain_base_has_scheme (base : string) :
  plain_base_url base = true -> has_url_type base = true.
Proof.
  unfold plain_base_url. intros H.
  apply andb_true_iff in H as [H _]. apply andb_true_iff in H as [H _].
  apply andb_true_iff in H as [_ H]. exact H.
Qed.

(** X1: the [headers=] mapping an operation hands to
    [urllib.request.Request] is the same for every operation and base
    URL and has three entries: [Authorization] with ["Bearer "] followed
    by the API key as it was given to the constructor, [Content-Type] and
    [Accept], both ["application/json"].  The client sets no other
    header; what [urllib] adds of its own when it sends is not part of
    this mapping. *)
Theorem headers_argument_of_every_request :
  forall (json_loads : string -> option json) (json_dumps : json -> string)
         (net : Request -> urlopen_outcome) (api_key base_url : string)
         (op : operation) (req : Request),
    In req (sent net (perform json_loads json_dumps (Glyph_init api_key base_url) op)) ->
    req_headers req = [("Authorization", "Bearer " ++ api_key);
                       ("Content-Type", "application/json");
                       ("Accept", "application/json")].
Proof.
  intros json_loads json_dumps net api_key base_url op req Hin.
  now rewrite (sent_perform_only json_loads json_dumps net _ op req Hin).
Qed.

Lemma headers_argument_of_every_request_witness :
  req_headers (request_of Reference.dumps (Glyph_init "gk_live_42" "https://x.test/")
                          (OpTemplateSchema "invoice"))
  = [("Authorization", "Bearer gk_live_42");
     ("Content-Type", "application/json");
     ("Accept", "application/json")].
Proof.
  apply (headers_argument_of_every_request Reference.loads Reference.dumps
           (fun _ => Raised (URLError "timed out")) "gk_live_42" "https://x.test/"
           (OpTemplateSchema "invoice")).
  left. reflexivity.
Defined.

(** X2: an operation calls [urlopen] at most once, whatever the base URL
    and whatever comes back: a failure is never retried. *)
Theorem never_a_second_request :
  forall (json_loads : string -> option json) (json_dumps : json -> string)
         (net : Request -> urlopen_outcome) (self : Glyph) (op : operation),
    (List.length (sent net (perform json_loads json_dumps self op)) <= 1)%nat.
Proof.
  intros json_loads json_dumps net self op.
  destruct (has_url_type (_base_url self ++ path_of op)) eqn:H.
  - rewrite (sent_perform_url json_loads json_dumps net self op H). simpl. lia.
  - destruct (perform_without_url json_loads json_dumps net self op H) as [_ ->].
    simpl. lia.
Qed.

(** X3: a client built on a base URL with no scheme (such as
    ["api.glyph.you"]) cannot call the service: every operation raises
    the [ValueError] of the [Request] constructor, outside the [try], and
    nothing is sent.  Stripping the trailing slashes does not change
    whether the base URL has a scheme. *)
Theorem base_url_without_scheme :
  forall (json_loads : string -> option json) (json_dumps : json -> string)
         (net : Request -> urlopen_outcome) (api_key base_url : string)
         (op : operation),
    has_url_type (_base_url (Glyph_init api_key base_url)) = has_url_type base_url
    /\ (has_url_type base_url = false ->
        run net (perform json_loads json_dumps (Glyph_init api_key base_url) op)
        = Raises ValueError
        /\ sent net (perform json_loads json_dumps (Glyph_init api_key base_url) op) = []
        /\ isinstance ValueError ClsGlyphError = false).
Proof.
  intros json_loads json_dumps net api_key base_url op.
  assert (E : has_url_type (_base_url (Glyph_init api_key base_url)) = has_url_type base_url)
    by apply scheme_from_rstrip.
  split; [exact E |].
  intros H. rewrite <- E in H.
  destruct (perform_without_url json_loads json_dumps net _ op (no_scheme_no_url _ op H))
    as [Hr Hs].
  repeat split; assumption.
Qed.

Lemma base_url_without_scheme_witness :
  run (fun _ => Responded "{}")
      (perform Reference.loads Reference.dumps (Glyph_init "gk_key" "api.glyph.you/")
               (OpTemplates None))
  = Raises ValueError
  /\ sent (fun _ => Responded "{}")
          (perform Reference.loads Reference.dumps (Glyph_init "gk_key" "api.glyph.you/")
                   (OpTemplates None)) = []
  /\ isinstance ValueError ClsGlyphError = false.
Proof.
  apply (proj2 (base_url_without_scheme Reference.loads Reference.dumps
                  (fun _ => Responded "{}") "gk_key" "api.glyph.you/" (OpTemplates None))).
  reflexivity.
Defined.

(** X4: no operation lets a [urllib] error through as it is: whatever
    [urlopen] does, an exception that leaves [create], [templates] or
    [template_schema] is no [URLError] and so no [HTTPError] either. *)
Theorem no_urllib_error_escapes :
  forall (json_loads : string -> option json) (json_dumps : json -> string)
         (net : Request -> urlopen_outcome) (self : Glyph) (op : operation)
         (e : pyexc),
    run net (perform json_loads json_dumps self op) = Raises e ->
    isinstance e ClsURLError = false /\ isinstance e ClsHTTPError = false.
Proof.
  intros json_loads json_dumps net self op e Hrun.
  assert (U : isinstance e ClsURLError = false).
  { destruct (has_url_type (_base_url self ++ path_of op)) eqn:H.
    - rewrite (run_perform_url json_loads json_dumps net self op H) in Hrun.
      destruct (net (request_of json_dumps self op)) as [raw | exc]; simpl in Hrun.
      + destruct (json_loads raw) as [v |].
        * now rewrite (finish_no_url_error net op v e Hrun).
        * now injection Hrun as <-.
      + exact (except_clauses_no_url_error json_loads net exc e Hrun).
    - destruct (perform_without_url json_loads json_dumps net self op H) as [Hr _].
      rewrite Hr in Hrun. now injection Hrun as <-. }
  split; [exact U |].
  destruct e; simpl in *; congruence.
Qed.

Lemma no_urllib_error_escapes_witness :
  isinstance (GlyphError (JStr "Connection error: timed out") 0 (JStr "CONNECTION_ERROR"))
             ClsURLError = false
  /\ isinstance (GlyphError (JStr "Connection error: timed out") 0 (JStr "CONNECTION_ERROR"))
                ClsHTTPError = false.
Proof.
  apply (no_urllib_error_escapes Reference.loads Reference.dumps
           (fun _ => Raised (URLError "timed out"))
           (Glyph_init "gk_key" default_base_url) (OpCreate no_args)).
  reflexivity.
Defined.

Lemma except_clauses_net_free (json_loads : string -> option json)
    (net net' : Request -> urlopen_outcome) (exc : pyexc) :
  run net (except_clauses json_loads exc) = run net' (except_clauses json_loads exc).
Proof.
  destruct exc as [code msg raw | reason | | | | m s c | name];
    unfold except_clauses; simpl; try reflexivity.
  unfold on_http_error. destruct (json_loads raw) as [[] |]; reflexivity.
Qed.

(** X5: [create] and [template_schema] validate nothing.  When one of
    them returns a value, [urlopen] handed back a response and the value
    is its decoded body; and on a base URL that [Request] takes as it is,
    a response whose body decodes is returned as decoded, whatever JSON
    value it is, object or not. *)
Theorem returned_value_is_the_decoded_body :
  forall (json_loads : string -> option json) (json_dumps : json -> string)
         (net : Request -> urlopen_outcome) (self : Glyph) (v : json),
    (forall a : create_args,
        run net (create json_loads json_dumps self a) = Returns v ->
        exists raw, net (request_of json_dumps self (OpCreate a)) = Responded raw
                    /\ json_loads raw = Some v)
    /\ (forall template_id : string,
          run net (template_schema json_loads json_dumps self template_id) = Returns v ->
          exists raw,
            net (request_of json_dumps self (OpTemplateSchema template_id)) = Responded raw
            /\ json_loads raw = Some v)
    /\ (forall (a : create_args) (raw : string),
          plain_base_url (_base_url self) = true ->
          net (request_of json_dumps self (OpCreate a)) = Responded raw ->
          json_loads raw = Some v ->
          run net (create json_loads json_dumps self a) = Returns v)
    /\ (forall (template_id raw : string),
          plain_base_url (_base_url self) = true ->
          net (request_of json_dumps self (OpTemplateSchema template_id)) = Responded raw ->
          json_loads raw = Some v ->
          run net (template_schema json_loads json_dumps self template_id) = Returns v).
Proof.
  intros json_loads json_dumps net self v.
  assert (G : forall op, finish op = Return ->
     run net (perform json_loads json_dumps self op) = Returns v ->
     exists raw, net (request_of json_dumps self op) = Responded raw
                 /\ json_loads raw = Some v).
  { intros op Hfin Hrun.
    destruct (has_url_type (_base_url self ++ path_of op)) eqn:H.
    - rewrite (run_perform_url json_loads json_dumps net self op H), Hfin in Hrun.
      destruct (net (request_of json_dumps self op)) as [raw | exc]; simpl in Hrun.
      + destruct (json_loads raw) as [w |] eqn:Hraw; simpl in Hrun; [| discriminate].
        injection Hrun as ->. now exists raw.
      + destruct (except_clauses_raise json_loads net exc) as [e He].
        rewrite He in Hrun. discriminate.
    - destruct (perform_without_url json_loads json_dumps net self op H) as [Hr _].
      rewrite Hr in Hrun. discriminate. }
  assert (F : forall op raw, finish op = Return ->
     plain_base_url (_base_url self) = true ->
     net (request_of json_dumps self op) = Responded raw ->
     json_loads raw = Some v ->
     run net (perform json_loads json_dumps self op) = Returns v).
  { intros op raw Hfin Hplain Hnet Hraw.
    rewrite (run_responded json_loads json_dumps net self op raw v
               (plain_base_has_scheme _ Hplain) Hnet Hraw).
    now rewrite Hfin. }
  split; [intros a; exact (G (OpCreate a) eq_refl) |].
  split; [intros template_id; exact (G (OpTemplateSchema template_id) eq_refl) |].
  split.
  - intros a raw. exact (F (OpCreate a) raw eq_refl).
  - intros template_id raw. exact (F (OpTemplateSchema template_id) raw eq_refl).
Qed.

Lemma returned_value_is_the_decoded_body_witness :
  run (fun _ => Responded "[1, 2]")
      (create Reference.loads Reference.dumps (Glyph_init "gk_key" default_base_url) no_args)
  = Returns (JArr [JInt 1; JInt 2])
  /\ exists raw,
      (fun _ : Request => Responded "[1, 2]")
        (request_of Reference.dumps (Glyph_init "gk_key" default_base_url) (OpCreate no_args))
      = Responded raw
      /\ Reference.loads raw = Some (JArr [JInt 1; JInt 2]).
Proof.
  pose proof (returned_value_is_the_decoded_body Reference.loads Reference.dumps
                (fun _ => Responded "[1, 2]") (Glyph_init "gk_key" default_base_url)
                (JArr [JInt 1; JInt 2])) as (Hinv & _ & Hfwd & _).
  assert (R : run (fun _ => Responded "[1, 2]")
                  (create Reference.loads Reference.dumps
                          (Glyph_init "gk_key" default_base_url) no_args)
              = Returns (JArr [JInt 1; JInt 2])).
  { apply (Hfwd no_args "[1, 2]"); reflexivity. }
  split; [exact R |].
  exact (Hinv no_args R).
Defined.

(** X6: [templates] returns only on an object: when it returns a value,
    [urlopen] handed back a response whose body decodes to a JSON object,
    and the value is that object's [templates] field, or the empty list
    when the object has none. *)
Theorem templates_returns_only_on_objects :
  forall (json_loads : string -> option json) (json_dumps : json -> string)
         (net : Request -> urlopen_outcome) (self : Glyph)
         (category : option string) (v : json),
    run net (templates json_loads json_dumps self category) = Returns v ->
    exists raw d,
      net (request_of json_dumps self (OpTemplates category)) = Responded raw
      /\ json_loads raw = Some (JObj d)
      /\ v = dict_get d "templates" (JArr []).
Proof.
  intros json_loads json_dumps net self category v.
  change (templates json_loads json_dumps self category)
    with (perform json_loads json_dumps self (OpTemplates category)).
  intros Hrun.
  destruct (has_url_type (_base_url self ++ path_of (OpTemplates category))) eqn:H.
  - rewrite (run_perform_url json_loads json_dumps net self _ H) in Hrun.
    destruct (net (request_of json_dumps self (OpTemplates category))) as [raw | exc];
      simpl in Hrun.
    + destruct (json_loads raw) as [w |] eqn:Hraw; simpl in Hrun; [| discriminate].
      destruct w; simpl in Hrun; try discriminate.
      injection Hrun as <-. exists raw, fields. now repeat split.
    + destruct (except_clauses_raise json_loads net exc) as [e He].
      rewrite He in Hrun. discriminate.
  - destruct (perform_without_url json_loads json_dumps net self _ H) as [Hr _].
    rewrite Hr in Hrun. discriminate.
Qed.

Lemma templates_returns_only_on_objects_witness :
  exists raw d,
    (fun _ : Request => Responded (Reference.js "{'count': 0}"))
      (request_of Reference.dumps (Glyph_init "gk_key" default_base_url)
                  (OpTemplates (Some "none yet")))
    = Responded raw
    /\ Reference.loads raw = Some (JObj d)
    /\ JArr [] = dict_get d "templates" (JArr []).
Proof.
  apply (templates_returns_only_on_objects Reference.loads Reference.dumps
           (fun _ => Responded (Reference.js "{'count': 0}"))
           (Glyph_init "gk_key" default_base_url) (Some "none yet") (JArr [])).
  reflexivity.
Defined.

(** X7: when the 2xx body of [templates] is JSON but no object, for
    instance a bare list of templates, [templates] raises an
    [AttributeError] from [result.get]; no [GlyphError] is made of it. *)
Theorem templates_on_non_object_body :
  forall (json_loads : string -> option json) (json_dumps : json -> string)
         (net : Request -> urlopen_outcome) (self : Glyph)
         (category : option string) (raw : string) (v : json),
    has_url_type (_base_url self) = true ->
    net (request_of json_dumps self (OpTemplates category)) = Responded raw ->
    json_loads raw = Some v ->
    (forall d, v <> JObj d) ->
    run net (templates json_loads json_dumps self category) = Raises AttributeError
    /\ isinstance AttributeError ClsGlyphError = false.
Proof.
  intros json_loads json_dumps net self category raw v Hurl Hnet Hraw Hv.
  split; [| reflexivity].
  change (templates json_loads json_dumps self category)
    with (perform json_loads json_dumps self (OpTemplates category)).
  rewrite (run_responded json_loads json_dumps net self _ raw v Hurl Hnet Hraw).
  destruct v; try reflexivity. now elim (Hv fields).
Qed.

Lemma templates_on_non_object_body_witness :
  run (fun _ => Responded (Reference.js "[{'id': 'a'}]"))
      (templates Reference.loads Reference.dumps (Glyph_init "gk_key" default_base_url) None)
  = Raises AttributeError
  /\ isinstance AttributeError ClsGlyphError = false.
Proof.
  apply (templates_on_non_object_body Reference.loads Reference.dumps
           (fun _ => Responded (Reference.js "[{'id': 'a'}]"))
           (Glyph_init "gk_key" default_base_url) None
           (Reference.js "[{'id': 'a'}]") (JArr [JObj [("id", JStr "a")]])).
  - reflexivity.
  - reflexivity.
  - reflexivity.
  - discriminate.
Defined.

(** X8: the three operations handle a failure of [urlopen] alike: for
    the same exception, any two calls, of whatever operations and on
    whatever clients, end in the same exception, and none of them
    returns. *)
Theorem failures_handled_alike :
  forall (json_loads : string -> option json) (json_dumps : json -> string)
         (net net' : Request -> urlopen_outcome) (self self' : Glyph)
         (op op' : operation) (exc : pyexc),
    has_url_type (_base_url self) = true ->
    has_url_type (_base_url self') = true ->
    net (request_of json_dumps self op) = Raised exc ->
    net' (request_of json_dumps self' op') = Raised exc ->
    exists e,
      run net (perform json_loads json_dumps self op) = Raises e
      /\ run net' (perform json_loads json_dumps self' op') = Raises e.
Proof.
  intros json_loads json_dumps net net' self self' op op' exc Hurl Hurl' Hnet Hnet'.
  destruct (except_clauses_raise json_loads net exc) as [e He].
  exists e.
  rewrite (run_perform json_loads json_dumps net self op Hurl), Hnet.
  rewrite (run_perform json_loads json_dumps net' self' op' Hurl'), Hnet'.
  simpl. rewrite <- (except_clauses_net_free json_loads net net' exc).
  split; exact He.
Qed.

Lemma failures_handled_alike_witness :
  exists e,
    run (fun _ => Raised (HTTPError 429 "Too Many Requests"
                            (Reference.js "{'code': 'RATE_LIMITED'}")))
        (perform Reference.loads Reference.dumps (Glyph_init "gk_a" default_base_url)
                 (OpCreate no_args)) = Raises e
    /\ run (fun _ => Raised (HTTPError 429 "Too Many Requests"
                               (Reference.js "{'code': 'RATE_LIMITED'}")))
           (perform Reference.loads Reference.dumps (Glyph_init "gk_b" "https://x.test/")
                    (OpTemplates (Some "invoices"))) = Raises e.
Proof.
  apply (failures_handled_alike Reference.loads Reference.dumps
           (fun _ => Raised (HTTPError 429 "Too Many Requests"
                               (Reference.js "{'code': 'RATE_LIMITED'}")))
           (fun _ => Raised (HTTPError 429 "Too Many Requests"
                               (Reference.js "{'code': 'RATE_LIMITED'}")))
           (Glyph_init "gk_a" default_base_url) (Glyph_init "gk_b" "https://x.test/")
           (OpCreate no_args) (OpTemplates (Some "invoices"))
           (HTTPError 429 "Too Many Requests" (Reference.js "{'code': 'RATE_LIMITED'}")));
    reflexivity.
Defined.

(** X9: an exception of [urlopen] that is no [URLError] (a dropped
    connection while the response is read, say) is not normalised: it
    leaves the operation as it is, not wrapped in a [GlyphError]. *)
Theorem other_exceptions_pass_through :
  forall (json_loads : string -> option json) (json_dumps : json -> string)
         (net : Request -> urlopen_outcome) (self : Glyph) (op : operation)
         (exc : pyexc),
    has_url_type (_base_url self) = true ->
    net (request_of json_dumps self op) = Raised exc ->
    isinstance exc ClsURLError = false ->
    run net (perform json_loads json_dumps self op) = Raises exc.
Proof.
  intros json_loads json_dumps net self op exc Hurl Hnet Hexc.
  rewrite (run_perform json_loads json_dumps net self op Hurl), Hnet. simpl.
  destruct exc; simpl in Hexc; try discriminate; reflexivity.
Qed.

Lemma other_exceptions_pass_through_witness :
  run (fun _ => Raised (OtherError "http.client.RemoteDisconnected"))
      (perform Reference.loads Reference.dumps (Glyph_init "gk_key" default_base_url)
               (OpTemplateSchema "invoice"))
  = Raises (OtherError "http.client.RemoteDisconnected").
Proof.
  apply (other_exceptions_pass_through Reference.loads Reference.dumps
           (fun _ => Raised (OtherError "http.client.RemoteDisconnected"))
           (Glyph_init "gk_key" default_base_url) (OpTemplateSchema "invoice")
           (OtherError "http.client.RemoteDisconnected")); reflexivity.
Defined.

(** X10: on an [HTTPError] the outcome is settled by the body alone.  The
    call raises an [AttributeError] exactly when the body decodes to a
    JSON value that is no object; in every other case it raises a
    [GlyphError] whose status is the HTTP status code.  It never
    returns. *)
Theorem http_error_outcomes :
  forall (json_loads : string -> option json) (json_dumps : json -> string)
         (net : Request -> urlopen_outcome) (self : Glyph) (op : operation)
         (code : Z) (msg raw : string),
    has_url_type (_base_url self) = true ->
    net (request_of json_dumps self op) = Raised (HTTPError code msg raw) ->
    (run net (perform json_loads json_dumps self op) = Raises AttributeError <->
     exists v, json_loads raw = Some v /\ forall d, v <> JObj d)
    /\ (run net (perform json_loads json_dumps self op) = Raises AttributeError
        \/ exists m c, run net (perform json_loads json_dumps self op)
                       = Raises (GlyphError m code c)).
Proof.
  intros json_loads json_dumps net self op code msg raw Hurl Hnet.
  rewrite (run_perform json_loads json_dumps net self op Hurl), Hnet. simpl.
  unfold except_clauses, on_http_error; simpl.
  destruct (json_loads raw) as [v |] eqn:Hraw.
  - destruct v; simpl;
      try (split; [split; [intros _; eexists; split; [reflexivity | discriminate]
                          | reflexivity]
                  | left; reflexivity]).
    split.
    + split; [discriminate |].
      intros (v & [= <-] & Hv). now elim (Hv fields).
    + right. eexists. eexists. reflexivity.
  - simpl. split.
    + split; [discriminate |]. intros (v & Hv & _). discriminate.
    + right. eexists. eexists. reflexivity.
Qed.

Lemma http_error_outcomes_witness :
  run (fun _ => Raised (HTTPError 502 "Bad Gateway" "502"))
      (perform Reference.loads Reference.dumps (Glyph_init "gk_key" default_base_url)
               (OpCreate no_args))
  = Raises AttributeError.
Proof.
  apply (proj1 (http_error_outcomes Reference.loads Reference.dumps
                  (fun _ => Raised (HTTPError 502 "Bad Gateway" "502"))
                  (Glyph_init "gk_key" default_base_url) (OpCreate no_args)
                  502 "Bad Gateway" "502" eq_refl eq_refl)).
  exists (JInt 502). split; [reflexivity | discriminate].
Defined.

(** X11: a [GlyphError] tells where it comes from.  When an operation
    raises one and [urlopen] did not raise it itself, then either
    [urlopen] raised a [URLError] that is no [HTTPError], and the error
    has status 0, code ["CONNECTION_ERROR"] and the message
    ["Connection error: <reason>"], or [urlopen] raised an [HTTPError]
    and the status is its status code. *)
Theorem glyph_error_origin :
  forall (json_loads : string -> option json) (json_dumps : json -> string)
         (net : Request -> urlopen_outcome) (self : Glyph) (op : operation)
         (m : json) (s : Z) (c : json),
    run net (perform json_loads json_dumps self op) = Raises (GlyphError m s c) ->
    net (request_of json_dumps self op) <> Raised (GlyphError m s c) ->
    (exists reason,
        net (request_of json_dumps self op) = Raised (URLError reason)
        /\ s = 0
        /\ c = JStr "CONNECTION_ERROR"
        /\ m = JStr ("Connection error: " ++ reason))
    \/ (exists msg raw,
           net (request_of json_dumps self op) = Raised (HTTPError s msg raw)).
Proof.
  intros json_loads json_dumps net self op m s c Hrun Hout.
  destruct (has_url_type (_base_url self ++ path_of op)) eqn:H.
  - rewrite (run_perform_url json_loads json_dumps net self op H) in Hrun.
    destruct (net (request_of json_dumps self op)) as [raw | exc]; simpl in Hrun.
    + destruct (json_loads raw) as [v |]; [| discriminate].
      apply finish_no_url_error in Hrun. discriminate.
    + destruct exc as [code msg raw | reason | | | | m' s' c' | name];
        unfold except_clauses in Hrun; simpl in Hrun; try discriminate.
      * right. exists msg, raw.
        unfold on_http_error in Hrun.
        destruct (json_loads raw) as [[] |]; simpl in Hrun; try discriminate;
          injection Hrun as _ <- _; reflexivity.
      * left. exists reason. injection Hrun as <- <- <-. now repeat split.
      * injection Hrun as -> -> ->. now elim Hout.
  - destruct (perform_without_url json_loads json_dumps net self op H) as [Hr _].
    rewrite Hr in Hrun. discriminate.
Qed.

Lemma glyph_error_origin_witness :
  (exists reason,
      (fun _ : Request => Raised (URLError "[Errno -2] Name or service not known"))
        (request_of Reference.dumps (Glyph_init "gk_key" default_base_url) (OpTemplates None))
      = Raised (URLError reason)
      /\ 0 = 0
      /\ JStr "CONNECTION_ERROR" = JStr "CONNECTION_ERROR"
      /\ JStr "Connection error: [Errno -2] Name or service not known"
         = JStr ("Connection error: " ++ reason))
  \/ (exists msg raw,
         (fun _ : Request => Raised (URLError "[Errno -2] Name or service not known"))
           (request_of Reference.dumps (Glyph_init "gk_key" default_base_url) (OpTemplates None))
         = Raised (HTTPError 0 msg raw)).
Proof.
  apply (glyph_error_origin Reference.loads Reference.dumps
           (fun _ => Raised (URLError "[Errno -2] Name or service not known"))
           (Glyph_init "gk_key" default_base_url) (OpTemplates None)
           (JStr "Connection error: [Errno -2] Name or service not known") 0
           (JStr "CONNECTION_ERROR")).
  - reflexivity.
  - discriminate.
Defined.

Lemma length_app (s t : string) :
  String.length (s ++ t) = (String.length s + String.length t)%nat.
Proof. induction s as [| c s IH]; simpl; [reflexivity | now rewrite IH]. Qed.

Lemma app_inv_tail (s s' t : string) : s ++ t = s' ++ t -> s = s'.
Proof.
  revert s'. induction s as [| c s IH]; intros [| c' s'] H; simpl in H.
  - reflexivity.
  - apply (f_equal String.length) in H. simpl in H. rewrite length_app in H. lia.
  - apply (f_equal String.length) in H. simpl in H. rewrite length_app in H. lia.
  - injection H as -> H. f_equal. now apply IH.
Qed.

Lemma count_char_app (c : ascii) (s t : string) :
  count_char c (s ++ t) = (count_char c s + count_char c t)%nat.
Proof. induction s as [| a s IH]; simpl; [reflexivity | rewrite IH; lia]. Qed.

Lemma count_char_absent (c : ascii) (s : string) :
  char_in c s = false -> count_char c s = O.
Proof.
  unfold char_in. induction s as [| a s IH]; simpl; [reflexivity |].
  intros H. apply orb_false_iff in H as [Ha Hs].
  rewrite Ascii.eqb_sym, Ha. now apply IH.
Qed.

Lemma quote_injective (a b : string) :
  quote a EmptyString = quote b EmptyString -> a = b.
Proof.
  intros H. rewrite <- (percent_decode_quote a), <- (percent_decode_quote b).
  now rewrite H.
Qed.

Lemma quote_plus_injective (a b : string) :
  quote_plus a EmptyString = quote_plus b EmptyString -> a = b.
Proof.
  rewrite !quote_plus_form_encode. intros H.
  rewrite <- (form_decode_form_encode a), <- (form_decode_form_encode b).
  now rewrite H.
Qed.

Lemma always_safe_not_space (c : ascii) :
  always_safe c = true -> Ascii.eqb c " " = false.
Proof. each_byte c; (discriminate || reflexivity). Qed.

Lemma quote_unreserved (s : string) :
  all_chars always_safe s = true -> quote_from_bytes s EmptyString = s.
Proof.
  unfold all_chars. induction s as [| c s IH]; simpl; [reflexivity |].
  intros H. apply andb_true_iff in H as [Hc Hs].
  rewrite quote_byte_empty_safe, Hc. simpl. f_equal. now apply IH.
Qed.

Lemma form_encode_unreserved (s : string) :
  all_chars always_safe s = true -> form_encode s = s.
Proof.
  unfold all_chars. induction s as [| c s IH]; simpl; [reflexivity |].
  intros H. apply andb_true_iff in H as [Hc Hs].
  unfold form_byte. rewrite (always_safe_not_space c Hc), Hc. simpl.
  f_equal. now apply IH.
Qed.

(** X12: the path of a request tells the operation and its argument: two
    calls ask for the same path only when they are the same operation
    with the same category, or the same template id.  No two template
    ids share a schema path and no two categories share a query. *)
Theorem path_determines_the_call :
  forall op op' : operation,
    path_of op = path_of op' ->
    match op, op' with
    | OpCreate _, OpCreate _ => True
    | OpTemplates category, OpTemplates category' => category = category'
    | OpTemplateSchema template_id, OpTemplateSchema template_id' =>
        template_id = template_id'
    | _, _ => False
    end.
Proof.
  intros [a | [c |] | t] [a' | [c' |] | t']; simpl; intros H;
    try exact I; try reflexivity; try discriminate.
  - injection H as H. f_equal. now apply quote_plus_injective.
  - injection H as H. apply app_inv_tail in H. now apply quote_injective.
Qed.

Lemma path_determines_the_call_witness :
  match OpTemplateSchema "a/b", OpTemplateSchema "a/b" with
  | OpCreate _, OpCreate _ => True
  | OpTemplates category, OpTemplates category' => category = category'
  | OpTemplateSchema template_id, OpTemplateSchema template_id' =>
      template_id = template_id'
  | _, _ => False
  end.
Proof.
  apply (path_determines_the_call (OpTemplateSchema "a/b") (OpTemplateSchema "a/b")).
  reflexivity.
Defined.

(** X13: a template id or a category made of unreserved characters only
    (letters, digits, [_], [.], [-], [~]) goes into the path unchanged. *)
Theorem unreserved_text_unchanged :
  forall s : string,
    all_chars always_safe s = true ->
    quote s EmptyString = s
    /\ quote_plus s EmptyString = s
    /\ template_schema_path s = "/v1/templates/" ++ s ++ "/schema"
    /\ templates_path (Some s) = "/v1/templates?category=" ++ s.
Proof.
  intros s H.
  assert (Q : quote s EmptyString = s).
  { rewrite quote_is_quote_from_bytes. now apply quote_unreserved. }
  assert (P : quote_plus s EmptyString = s).
  { rewrite quote_plus_form_encode. now apply form_encode_unreserved. }
  split; [exact Q |]. split; [exact P |].
  split.
  - unfold template_schema_path. now rewrite Q.
  - unfold templates_path. rewrite urlencode_category, P. reflexivity.
Qed.

Lemma unreserved_text_unchanged_witness :
  quote "invoice-2024_v1.0~draft" EmptyString = "invoice-2024_v1.0~draft"
  /\ quote_plus "invoice-2024_v1.0~draft" EmptyString = "invoice-2024_v1.0~draft"
  /\ template_schema_path "invoice-2024_v1.0~draft"
     = "/v1/templates/" ++ "invoice-2024_v1.0~draft" ++ "/schema"
  /\ templates_path (Some "invoice-2024_v1.0~draft")
     = "/v1/templates?category=" ++ "invoice-2024_v1.0~draft".
Proof.
  apply (unreserved_text_unchanged "invoice-2024_v1.0~draft"). reflexivity.
Defined.

(** X14: an argument cannot change the shape of the URL.  Whatever the
    template id, the schema path has its four slashes and no [?] or [#]:
    the id adds no path segment and no query.  Whatever the category, the
    listing path has one [?] and one [=] and no [&], [#] or further
    slash: the query holds the one parameter [category]. *)
Theorem arguments_keep_the_url_shape :
  forall s : string,
    count_char "/" (template_schema_path s) = 4%nat
    /\ count_char "?" (template_schema_path s) = 0%nat
    /\ count_char "#" (template_schema_path s) = 0%nat
    /\ count_char "?" (templates_path (Some s)) = 1%nat
    /\ count_char "=" (templates_path (Some s)) = 1%nat
    /\ count_char "&" (templates_path (Some s)) = 0%nat
    /\ count_char "#" (templates_path (Some s)) = 0%nat
    /\ count_char "/" (templates_path (Some s)) = 2%nat.
Proof.
  intros s.
  assert (Q : forall c, segment_char c = false ->
                        count_char c (quote s EmptyString) = 0%nat).
  { intros c Hc. apply count_char_absent.
    apply (all_chars_not_in segment_char); [apply quote_alphabet | exact Hc]. }
  assert (P : forall c, form_char c = false ->
                        count_char c (quote_plus s EmptyString) = 0%nat).
  { intros c Hc. apply count_char_absent.
    apply (all_chars_not_in form_char); [| exact Hc].
    rewrite quote_plus_form_encode. apply form_encode_alphabet. }
  unfold template_schema_path, templates_path. rewrite urlencode_category.
  rewrite !count_char_app.
  rewrite (Q "/"%char eq_refl), (Q "?"%char eq_refl), (Q "#"%char eq_refl).
  rewrite (P "?"%char eq_refl), (P "="%char eq_refl), (P "&"%char eq_refl),
    (P "#"%char eq_refl), (P "/"%char eq_refl).
  repeat split.
Qed.

Lemma last_char_cons (a b : ascii) (r : string) :
  last_char (String a (String b r)) = last_char (String b r).
Proof.
  change (last_char (String a (String b r)))
    with (match last_char (String b r) with Some l => Some l | None => Some a end).
  destruct (last_char (String b r)) eqn:E; [reflexivity |].
  simpl in E. destruct (last_char r); discriminate.
Qed.

(** A text that does not end in a character of [chars] is left alone. *)
Lemma rstrip_fixed (chars s : string) :
  (forall c, last_char s = Some c -> char_in c chars = false) ->
  rstrip chars s = s.
Proof.
  induction s as [| a rest IH]; [reflexivity |].
  intros H. destruct rest as [| b r].
  - simpl. now rewrite (H a eq_refl).
  - assert (E : rstrip chars (String b r) = String b r).
    { apply IH. intros c Hc. apply H. now rewrite last_char_cons. }
    change (rstrip chars (String a (String b r)))
      with (match rstrip chars (String b r) with
            | EmptyString => if char_in a chars then EmptyString else String a EmptyString
            | kept => String a kept
            end).
    now rewrite E.
Qed.

(** X15: the constructor keeps the API key as given and is stable: a base
    URL that does not end in a slash is stored unchanged, and building a
    client on the stored base of another gives the same client.  The
    factory [glyph] builds the client the constructor builds. *)
Theorem constructor_is_stable :
  forall (api_key base_url : string),
    _api_key (Glyph_init api_key base_url) = api_key
    /\ glyph api_key base_url = Glyph_init api_key base_url
    /\ Glyph_init api_key (_base_url (Glyph_init api_key base_url))
       = Glyph_init api_key base_url
    /\ (last_char base_url <> Some "/"%char ->
        _base_url (Glyph_init api_key base_url) = base_url).
Proof.
  intros api_key base_url.
  split; [reflexivity |]. split; [reflexivity |].
  split.
  - unfold Glyph_init; simpl. f_equal.
    apply rstrip_fixed. intros c Hc. exact (rstrip_last "/" base_url c Hc).
  - intros H. simpl. apply rstrip_fixed.
    intros c Hc. unfold char_in; simpl. rewrite orb_false_r.
    apply Ascii.eqb_neq. intros ->. now elim H.
Qed.

Lemma constructor_is_stable_witness :
  _base_url (Glyph_init "gk_key" "https://x.test/api//v2") = "https://x.test/api//v2".
Proof.
  apply (proj2 (proj2 (proj2 (constructor_is_stable "gk_key" "https://x.test/api//v2")))).
  discriminate.
Defined.
